(** * The attributed logger of the Fastify service template

  A shallow embedding of [src/util/logger.ts] and of the environment
  configuration module it imports ([../config/env.js]), followed by the
  properties the specification states about them.

  The file is organised as follows:
  - [JS]: the few JavaScript notions the code relies on (truthiness,
    [||], [String.prototype.includes], [toUpperCase], abrupt completion);
  - [NodePath]: a POSIX model of [path.resolve] / [path.relative];
  - [Fecha]: the timestamp pattern [YYYY-MM-DD HH:mm:ss];
  - [Winston]: level table, transports and the level filter;
  - [Env]: the environment configuration module;
  - [Logger]: [getCallerFile], [shouldLogFileName], the [printf] formatter,
    module initialisation and the seven logging operations;
  - [Ansi]: removal of colour escape sequences, used to state the
    structure of a line;
  - the theorems. *)

From Stdlib Require Import String Ascii List Arith Lia Bool DecimalString.
From stdpp Require Import base strings gmap list.

(** ** JavaScript notions *)

Module JS.

(** A non-empty string is truthy, the empty string is falsy. *)
Definition truthy (s : string) : bool := negb (String.eqb s "").

(** [x || d] where [x] is a string or [undefined]/[null]. *)
Definition or_else (x : option string) (d : string) : string :=
  match x with
  | Some s => if truthy s then s else d
  | None => d
  end.

(** [hay.includes(needle)]. *)
Fixpoint includes (needle hay : string) : bool :=
  String.prefix needle hay ||
  match hay with
  | EmptyString => false
  | String _ hay' => includes needle hay'
  end.

(** [toUpperCase] on the ASCII range, which is all the level names use. *)
Definition upper_ascii (c : ascii) : ascii :=
  let n := nat_of_ascii c in
  if (97 <=? n) && (n <=? 122) then ascii_of_nat (n - 32) else c.

Fixpoint toUpperCase (s : string) : string :=
  match s with
  | EmptyString => EmptyString
  | String c s' => String (upper_ascii c) (toUpperCase s')
  end.

(** Completion of an evaluation: a value, or a thrown error. *)
Inductive error := TypeError (what : string).

Inductive completion (A : Type) : Type :=
| Normal (a : A)
| Throw (e : error).
Global Arguments Normal {A} a.
Global Arguments Throw {A} e.

Definition bind {A B} (m : completion A) (k : A -> completion B) : completion B :=
  match m with
  | Normal a => k a
  | Throw e => Throw e
  end.

Definition returns {A} (m : completion A) (a : A) : Prop := m = Normal a.

Definition throws {A} (m : completion A) : Prop := exists e, m = Throw e.

End JS.

Export JS.

#[global] Instance completion_ret : MRet completion := @Normal.
#[global] Instance completion_bind : MBind completion := fun A B k m => JS.bind m k.
#[global] Instance completion_fmap : FMap completion :=
fun A B f m => JS.bind m (fun a => Normal (f a)).

(** ** [node:path], POSIX flavour *)

Module NodePath.

(** [s.split("/")]. *)
Fixpoint split (s : string) : list string :=
  match s with
  | EmptyString => [EmptyString]
  | String c s' =>
      if Ascii.eqb c "/" then EmptyString :: split s'
      else match split s' with
           | seg :: segs => String c seg :: segs
           | [] => [String c EmptyString]
           end
  end.

Definition join (segs : list string) : string := String.concat "/" segs.

(** One step of path normalisation; the stack holds the segments kept so
    far, innermost first. Empty segments and [.] vanish, [..] pops (and is
    dropped at the root of an absolute path). *)
Definition push_segment (stack : list string) (seg : string) : list string :=
  if String.eqb seg "" then stack
  else if String.eqb seg "." then stack
  else if String.eqb seg ".." then tail stack
  else seg :: stack.

Definition normalize_segments (segs : list string) : list string :=
  rev (fold_left push_segment segs []).

Definition isAbsolute (p : string) : bool := String.prefix "/" p.

(** Segments of [path.resolve(p)] in a process whose working directory is
    [pcwd] (an absolute path). *)
Definition resolve_segments (pcwd p : string) : list string :=
  normalize_segments (if isAbsolute p then split p else split pcwd ++ split p).

Definition resolve (pcwd p : string) : string :=
  "/" +:+ join (resolve_segments pcwd p).

Fixpoint strip_common (a b : list string) : list string * list string :=
  match a, b with
  | x :: a', y :: b' => if String.eqb x y then strip_common a' b' else (a, b)
  | _, _ => (a, b)
  end.

(** [path.relative(from, to)]: the empty string when both resolve to the
    same path, otherwise one [..] per remaining segment of [from] followed
    by the remaining segments of [to]. *)
Definition relative (pcwd from to : string) : string :=
  if String.eqb from to then ""
  else
    let '(f, t) := strip_common (resolve_segments pcwd from)
                                (resolve_segments pcwd to) in
    join (map (fun _ => "..") f ++ t).

End NodePath.

(** ** Timestamps *)

Module Fecha.

Record DateTime := {
  year : nat;
  month : nat;
  day : nat;
  hours : nat;
  minutes : nat;
  seconds : nat
}.

Definition string_of_nat (n : nat) : string :=
  NilEmpty.string_of_uint (Nat.to_uint n).

Fixpoint zeros (n : nat) : string :=
  match n with
  | O => ""
  | S n' => String "0" (zeros n')
  end.

(** Left-pad the decimal writing of [val] with zeros up to [len]. *)
Definition pad (val len : nat) : string :=
  let s := string_of_nat val in
  zeros (len - String.length s) +:+ s.

(** Modelled from the spec: the timestamp formatter is library code that
    [format.timestamp({ format: "YYYY-MM-DD HH:mm:ss" })] selects; it is
    not under src/. The spec gives the pattern [YYYY-MM-DD HH:mm:ss]:
    four-digit year, then two-digit month, day, hours, minutes, seconds. *)
Definition format (d : DateTime) : string :=
  pad (year d) 4 +:+ "-" +:+ pad (month d) 2 +:+ "-" +:+ pad (day d) 2 +:+ " " +:+
  pad (hours d) 2 +:+ ":" +:+ pad (minutes d) 2 +:+ ":" +:+ pad (seconds d) 2.

Definition is_digit (c : ascii) : bool :=
  let n := nat_of_ascii c in (48 <=? n) && (n <=? 57).

Fixpoint all_digits (s : string) : bool :=
  match s with
  | EmptyString => true
  | String c s' => is_digit c && all_digits s'
  end.

(** The shape [dddd-dd-dd dd:dd:dd]. *)
Definition shape : list (ascii -> bool) :=
  let d := is_digit in
  let k (c : ascii) := fun x => Ascii.eqb x c in
  [d; d; d; d; k "-"; d; d; k "-"; d; d; k " "; d; d; k ":"; d; d; k ":"; d; d]%char.

Fixpoint matches (sh : list (ascii -> bool)) (s : string) : bool :=
  match sh, s with
  | [], EmptyString => true
  | p :: sh', String c s' => p c && matches sh' s'
  | _, _ => false
  end.

Definition is_timestamp (s : string) : bool := matches shape s.

(** A calendar date and time of day with a year of at most four digits. *)
Definition civil (d : DateTime) : Prop :=
  String.length (string_of_nat (year d)) <= 4 /\ 1 <= month d <= 12 /\ 1 <= day d <= 31 /\
  hours d <= 23 /\ minutes d <= 59 /\ seconds d <= 59.

End Fecha.

(** ** Winston *)

Module Winston.

(** Modelled from the spec: the level table of the logging library (its
    default, npm-style levels), which is not under src/. The spec orders the
    seven severities [error > warn > info > http > verbose > debug > silly];
    the table numbers them from the most severe, 0, to the least, 6. *)
Definition levels : gmap string nat :=
  list_to_map [("error", 0); ("warn", 1); ("info", 2); ("http", 3);
               ("verbose", 4); ("debug", 5); ("silly", 6)].

(** A transport; [transports.Console] starts out not silent. *)
Record Transport := { silent : bool }.

Definition Console : Transport := {| silent := false |}.

(** What [createLogger] keeps of its options; the format is the [printf]
    function of the logger module. *)
Record Logger := {
  level : string;
  transports : list Transport
}.

Definition createLogger (lvl : string) (ts : list Transport) : Logger :=
  {| level := lvl; transports := ts |}.

(** Modelled from the spec: the level filter a transport applies, library
    code that is not under src/. A record passes when the logger's level is
    at or below the record's level in the ordering, that is when
    [levels[threshold] >= levels[lvl]]; with a threshold that has no entry in
    the table the comparison fails and nothing passes. *)
Definition level_enabled (threshold lvl : string) : bool :=
  match levels !! threshold, levels !! lvl with
  | Some t, Some l => l <=? t
  | _, _ => false
  end.

(** Modelled from the spec: what the transports do with a formatted record,
    library code that is not under src/. The spec has one line written to
    standard output per record that passes, and none when the logger is
    disabled: a silent transport writes nothing, another one writes the line
    when the level passes the filter. *)
Definition write (lg : Logger) (lvl : string) (line : string) : list string :=
  flat_map (fun t => if silent t then []
                     else if level_enabled (level lg) lvl then [line] else [])
           (transports lg).

(** [transport.silent = true]. *)
Definition silence (t : Transport) : Transport := {| silent := true |}.

End Winston.

(** ** The environment configuration module *)

Module Env.

Record DebuggingConfig := {
  logLevel : string;
  enableDebug : bool
}.

Record EnvConfig := { debugging : DebuggingConfig }.

(** [process.env] is a map from variable names to strings. The cast of
    [LOG_LEVEL] to the level type is erased at run time, so [logLevel] holds
    whatever non-empty string the variable has. *)
Definition env (process_env : gmap string string) : EnvConfig :=
  {| debugging :=
       {| logLevel := or_else (process_env !! "LOG_LEVEL") "silly";
          enableDebug :=
            negb (bool_decide (process_env !! "ENABLE_DEBUG" = Some "false")) |} |}.

End Env.

(** ** The logger module *)

Module Logger.

Import Winston Env.

(** The seven levels, most severe first. *)
Inductive LogLevel := error | warn | info | http | verbose | debug | silly.

Definition level_name (l : LogLevel) : string :=
  match l with
  | error => "error"
  | warn => "warn"
  | info => "info"
  | http => "http"
  | verbose => "verbose"
  | debug => "debug"
  | silly => "silly"
  end.

Scheme Equality for LogLevel.

Definition all_levels : list LogLevel :=
  [error; warn; info; http; verbose; debug; silly].

(** Levels that should include the file name in logs. *)
Definition fileNameLogLevels : list string :=
  ["error"; "warn"; "info"; "http"; "verbose"; "debug"; "silly"].

(** [xs.includes(x)] on an array of strings. *)
Definition array_includes (xs : list string) (x : string) : bool :=
  existsb (String.eqb x) xs.

(** A call-site object of the stack; [getFileName()] is a string or null. *)
Record StackFrame := { getFileName : option string }.

(** What [stackTrace.get()] returns, innermost frame first. An entry may be
    missing ([undefined]). *)
Definition Trace := list (option StackFrame).

(** Calling [frame.getFileName()]; on a missing frame this is a TypeError. *)
Definition call_getFileName (frame : option StackFrame) : completion (option string) :=
  match frame with
  | Some f => Normal (getFileName f)
  | None => Throw (TypeError "Cannot read properties of undefined")
  end.

(** The condition of the [if] in the loop body:
    [fileName && !fileName.includes("node_modules") && !fileName.includes("util/logger")]. *)
Definition accepted (fileName : option string) : bool :=
  match fileName with
  | Some f =>
      truthy f && negb (includes "node_modules" f) && negb (includes "util/logger" f)
  | None => false
  end.

Definition fallback : string := "unknown file path".

Section Process.

(** [path.relative] of the running process, and [process.cwd()]. *)
Variable path_relative : string -> string -> string.
Variable cwd : string.

(** The [for] loop of [getCallerFile], over the frames not yet visited. *)
Fixpoint getCallerFile (trace : Trace) : completion string :=
  match trace with
  | [] => Normal fallback
  | frame :: rest =>
      if negb (bool_decide (is_Some frame)) then getCallerFile rest
      else
        fileName ← call_getFileName frame;
        if accepted fileName
        then Normal (path_relative cwd (default "" fileName))
        else getCallerFile rest
  end.

(** A frame the loop passes over: missing, or with a file name that is null,
    empty, or contains one of the two markers. *)
Definition skipped (frame : option StackFrame) : Prop :=
  accepted (frame ≫= getFileName) = false.

(** The resolution as the specification words it: the first frame, from the
    innermost outward, whose file is neither the logger's own nor library
    code gives the path relative to the working directory; when the stack
    is exhausted without one, the fallback literal is the answer. *)
Inductive walk : Trace -> string -> Prop :=
| walk_found pre name post :
    Forall skipped pre ->
    accepted (Some name) = true ->
    walk (pre ++ Some {| getFileName := Some name |} :: post) (path_relative cwd name)
| walk_exhausted trace :
    Forall skipped trace ->
    walk trace fallback.

Record TransformableInfo := {
  info_timestamp : option string;
  info_level : option string;
  info_message : option string
}.

(** [ESC [ code m]. *)
Definition sgr (code : string) : string :=
  String "027" ("[" +:+ code +:+ "m").

Definition paint (code text : string) : string :=
  sgr code +:+ text +:+ sgr "0".

(** The [switch] on the level. *)
Definition colorLevel (lvl coloredLevel : string) : string :=
  if String.eqb lvl "error" then paint "31" coloredLevel
  else if String.eqb lvl "warn" then paint "33" coloredLevel
  else if String.eqb lvl "info" then paint "32" coloredLevel
  else if String.eqb lvl "http" then paint "36" coloredLevel
  else if String.eqb lvl "debug" then paint "34" coloredLevel
  else if String.eqb lvl "verbose" then paint "90" coloredLevel
  else if String.eqb lvl "silly" then paint "90" coloredLevel
  else coloredLevel.

Definition colorFileName (fileName : option string) : string :=
  match fileName with
  | Some f => if truthy f then paint "35" ("[" +:+ f +:+ "]") else ""
  | None => ""
  end.

(** The function given to [format.printf]; [shouldLog] is the module
    constant [shouldLogFileName]. *)
Definition printf (shouldLog : bool) (i : TransformableInfo) (trace : Trace)
  : completion string :=
  let timestamp := or_else (info_timestamp i) "" in
  let lvl := or_else (info_level i) "" in
  let message := or_else (info_message i) "" in
  let coloredLevel := colorLevel lvl (toUpperCase lvl) in
  fileName ← (if shouldLog then Some <$> getCallerFile trace else Normal None);
  let coloredFileName := colorFileName fileName in
  Normal (timestamp +:+ " [" +:+ coloredLevel +:+ "]" +:+ coloredFileName +:+ ": " +:+ message).

(** What follows the timestamp in a line, for a caller file [f]. *)
Definition record_tail (shouldLog : bool) (lvl message f : string) : string :=
  " [" +:+ colorLevel lvl (toUpperCase lvl) +:+ "]" +:+
  colorFileName (if shouldLog then Some f else None) +:+ ": " +:+ message.

(** The line carries the file-path bracket, in its colour, around [f]. *)
Definition has_path_bracket (line f : string) : Prop :=
  exists before after,
    line = before +:+ paint "35" ("[" +:+ f +:+ "]") +:+ after.

(** The state of the module once evaluated. *)
Record LoggerModule := {
  shouldLogFileName : bool;
  logger : Winston.Logger
}.

(** One call [logger.<lvl>(message)] at time [now] with the stack [trace]:
    the record gets its timestamp, is formatted, and goes to the transports.
    The result is what reaches standard output. *)
Definition log (m : LoggerModule) (lvl message : string)
    (now : Fecha.DateTime) (trace : Trace) : completion (list string) :=
  let i := {| info_timestamp := Some (Fecha.format now);
              info_level := Some lvl;
              info_message := Some message |} in
  line ← printf (shouldLogFileName m) i trace;
  Normal (Winston.write (logger m) lvl line).

(** The seven operations. *)
Definition emit (m : LoggerModule) (l : LogLevel) (message : string)
    (now : Fecha.DateTime) (trace : Trace) : completion (list string) :=
  log m (level_name l) message now trace.

Definition silence_all (lg : Winston.Logger) : Winston.Logger :=
  {| level := level lg; transports := map silence (transports lg) |}.

(** The module before its last statement: constants and transports set. *)
Definition configure (e : EnvConfig) : LoggerModule :=
  let should := array_includes fileNameLogLevels (logLevel (debugging e)) in
  let lg := createLogger (or_else (Some (logLevel (debugging e))) "info") [Console] in
  let lg := if negb (enableDebug (debugging e)) then silence_all lg else lg in
  {| shouldLogFileName := should; logger := lg |}.

Definition init_message : string := "Logger initialized successfully".

(** Evaluation of the module: the configured module and what its last
    statement, [logger.info(...)], wrote. *)
Definition load (e : EnvConfig) (now : Fecha.DateTime) (trace : Trace)
  : completion (LoggerModule * list string) :=
  let m := configure e in
  out ← log m "info" init_message now trace;
  Normal (m, out).

(** *** The process as a state machine *)

Record World := {
  process_env : gmap string string;
  env_module : EnvConfig;
  logger_module : LoggerModule;
  stdout : list string
}.

Inductive Op :=
| Call (l : LogLevel) (message : string) (now : Fecha.DateTime) (trace : Trace)
| SetEnv (k v : string)
| DeleteEnv (k : string).

Definition step (w : World) (op : Op) : completion World :=
  match op with
  | Call l message now trace =>
      out ← emit (logger_module w) l message now trace;
      Normal {| process_env := process_env w; env_module := env_module w;
                logger_module := logger_module w; stdout := stdout w ++ out |}
  | SetEnv k v =>
      Normal {| process_env := <[k := v]> (process_env w); env_module := env_module w;
                logger_module := logger_module w; stdout := stdout w |}
  | DeleteEnv k =>
      Normal {| process_env := delete k (process_env w); env_module := env_module w;
                logger_module := logger_module w; stdout := stdout w |}
  end.

Fixpoint run (w : World) (ops : list Op) : completion World :=
  match ops with
  | [] => Normal w
  | op :: ops' => w' ← step w op; run w' ops'
  end.

(** Start of the process: both modules are evaluated, once. *)
Definition boot (penv : gmap string string) (now : Fecha.DateTime) (trace : Trace)
  : completion World :=
  let e := env penv in
  '(m, out) ← load e now trace;
  Normal {| process_env := penv; env_module := e; logger_module := m; stdout := out |}.

End Process.

(** The ordering of the spec, [error > warn > info > http > verbose > debug >
    silly]: position in [all_levels], smaller is more severe. *)
Fixpoint position (l : LogLevel) (ls : list LogLevel) : nat :=
  match ls with
  | [] => 0
  | x :: ls' => if LogLevel_beq x l then 0 else S (position l ls')
  end.

(** [at_or_below threshold l]: the threshold is [l] or a less severe level. *)
Definition at_or_below (threshold l : LogLevel) : bool :=
  position l all_levels <=? position threshold all_levels.

End Logger.

(** ** Colour escape sequences *)

Module Ansi.

Definition ESC : ascii := "027"%char.

(** A parameter character of a colour sequence: a digit or [;]. *)
Definition is_param (c : ascii) : bool :=
  Fecha.is_digit c || Ascii.eqb c ";".

(** Where the scanner is: outside a sequence, just after [ESC], or after
    [ESC \[] followed by the parameter characters read so far. *)
Inductive scan :=
| Outside
| AfterEsc
| InSeq (params : string).

(** What was held back, given back when the sequence turns out not to be a
    colour sequence. *)
Definition pending (st : scan) : string :=
  match st with
  | Outside => ""
  | AfterEsc => String ESC ""
  | InSeq params => String ESC ("[" +:+ params)
  end.

(** Remove every [ESC \[ params m] from the text; anything else stays. *)
Fixpoint strip_from (st : scan) (s : string) : string :=
  match s with
  | EmptyString => pending st
  | String c s' =>
      match st with
      | Outside =>
          if Ascii.eqb c ESC then strip_from AfterEsc s'
          else String c (strip_from Outside s')
      | AfterEsc =>
          if Ascii.eqb c "[" then strip_from (InSeq "") s'
          else if Ascii.eqb c ESC then pending st +:+ strip_from AfterEsc s'
          else pending st +:+ String c (strip_from Outside s')
      | InSeq params =>
          if is_param c then strip_from (InSeq (params +:+ String c "")) s'
          else if Ascii.eqb c "m" then strip_from Outside s'
          else if Ascii.eqb c ESC then pending st +:+ strip_from AfterEsc s'
          else pending st +:+ String c (strip_from Outside s')
      end
  end.

Definition strip (s : string) : string := strip_from Outside s.

(** No [ESC] in the text. *)
Fixpoint plain (s : string) : bool :=
  match s with
  | EmptyString => true
  | String c s' => negb (Ascii.eqb c ESC) && plain s'
  end.

End Ansi.

(** ** Sample inputs *)

Module Sample.

Import Logger.

(** A service started in [/srv/app]. *)
Definition cwd : string := "/srv/app".

Definition relative : string -> string -> string := NodePath.relative cwd.

Definition frame (name : string) : option StackFrame :=
  Some {| getFileName := Some name |}.

(** The stack seen from [getCallerFile] when a route handler logs: the
    logger's own frames, library frames, a missing entry, a frame without a
    file name, then the handler. *)
Definition stack : Trace :=
  [ frame "/srv/app/dist/util/logger.js";
    frame "/srv/app/dist/util/logger.js";
    frame "/srv/app/node_modules/logform/printf.js";
    frame "/srv/app/node_modules/winston/lib/winston/logger.js";
    None;
    Some {| getFileName := None |};
    frame "/srv/app/dist/routes/root.js";
    frame "node:internal/process/task_queues" ].

(** A stack whose first outside frame belongs to a script that was given the
    working directory as its file name. *)
Definition stack_at_cwd : Trace :=
  [ frame "/srv/app/dist/util/logger.js";
    frame "/srv/app/node_modules/winston/lib/winston/logger.js";
    frame "/srv/app" ].

(** A stack with nothing outside the logger and the libraries. *)
Definition stack_inside : Trace :=
  [ frame "/srv/app/dist/util/logger.js";
    None;
    frame "/srv/app/node_modules/winston/lib/winston/logger.js" ].

Definition now : Fecha.DateTime :=
  {| Fecha.year := 2026; Fecha.month := 11; Fecha.day := 3;
     Fecha.hours := 4; Fecha.minutes := 5; Fecha.seconds := 6 |}.

(** Environments. *)
Definition unset : gmap string string := ∅.

Definition at_http : gmap string string := {[ "LOG_LEVEL" := "http" ]}.

Definition at_error : gmap string string := {[ "LOG_LEVEL" := "error" ]}.

Definition bogus : gmap string string := {[ "LOG_LEVEL" := "bogus" ]}.

Definition disabled : gmap string string :=
  <[ "ENABLE_DEBUG" := "false" ]> {[ "LOG_LEVEL" := "silly" ]}.

End Sample.

(** ** The routes *)

Module Routes.

Import Logger Winston Env.

(** The object a handler returns, which the framework sends as JSON. *)
Inductive Reply :=
| RootReply (root : bool)
| HealthReply (status timestamp : string).

Section Process.

Variable path_relative : string -> string -> string.
Variable cwd : string.

(** The logging statement of the handler of [GET /]. *)
Definition root_calls (now : Fecha.DateTime) (trace : Trace) : list Op :=
  [ Call info "Hello world from root route" now trace ].

(** [GET /]: one record at level info, then the reply [{ root: true }]. *)
Definition get_root (w : World) (now : Fecha.DateTime) (trace : Trace)
  : completion (Reply * World) :=
  w' ← run path_relative cwd w (root_calls now trace);
  Normal (RootReply true, w').

(** The logging statements of the handler of [GET /health], in the order of
    the source; [clock i] is the time read by the call numbered [i]. *)
Definition health_calls (clock : nat -> Fecha.DateTime) (trace : Trace) : list Op :=
  [ Call error "Error level test" (clock 0) trace;
    Call warn "Warn level test" (clock 1) trace;
    Call info "Info level test" (clock 2) trace;
    Call http "HTTP level test" (clock 3) trace;
    Call verbose "Verbose level test" (clock 4) trace;
    Call debug "Debug level test" (clock 5) trace;
    Call silly "Silly level test" (clock 6) trace ].

(** [GET /health]: the seven records, then the reply with the status and
    [iso], the value of [new Date().toISOString()]. *)
Definition get_health (w : World) (clock : nat -> Fecha.DateTime) (iso : string)
    (trace : Trace) : completion (Reply * World) :=
  w' ← run path_relative cwd w (health_calls clock trace);
  Normal (HealthReply "ok" iso, w').

(** What an operation is expected to add to standard output when the logger
    was configured from the environment [penv]. *)
Definition written (penv : gmap string string) (op : Op) : list string :=
  match op with
  | Call l message now trace =>
      match getCallerFile path_relative cwd trace with
      | Normal f =>
          if enableDebug (debugging (env penv))
             && level_enabled (logLevel (debugging (env penv))) (level_name l)
          then [Fecha.format now +:+
                record_tail (shouldLogFileName (configure (env penv)))
                            (level_name l) message f]
          else []
      | Throw _ => []
      end
  | SetEnv _ _ => []
  | DeleteEnv _ => []
  end.

End Process.

Definition is_call (op : Op) : bool :=
  match op with
  | Call _ _ _ _ => true
  | SetEnv _ _ => false
  | DeleteEnv _ => false
  end.

(** The seven lines of [GET /health] for a caller file [f], before the
    threshold is applied. *)
Definition health_lines (clock : nat -> Fecha.DateTime) (f : string) : list string :=
  [ Fecha.format (clock 0) +:+ record_tail true "error" "Error level test" f;
    Fecha.format (clock 1) +:+ record_tail true "warn" "Warn level test" f;
    Fecha.format (clock 2) +:+ record_tail true "info" "Info level test" f;
    Fecha.format (clock 3) +:+ record_tail true "http" "HTTP level test" f;
    Fecha.format (clock 4) +:+ record_tail true "verbose" "Verbose level test" f;
    Fecha.format (clock 5) +:+ record_tail true "debug" "Debug level test" f;
    Fecha.format (clock 6) +:+ record_tail true "silly" "Silly level test" f ].

End Routes.

(** ** A started process *)

Module Started.

Import Logger Env.

(** The process once the logger is configured from [penv], with nothing on
    standard output yet. *)
Definition world (penv : gmap string string) : World :=
  {| process_env := penv; env_module := env penv;
     logger_module := configure (env penv); stdout := [] |}.

(** A clock that advances by one second from one reading to the next. *)
Definition clock (i : nat) : Fecha.DateTime :=
  {| Fecha.year := 2026; Fecha.month := 11; Fecha.day := 3;
     Fecha.hours := 4; Fecha.minutes := 5; Fecha.seconds := i |}.

Definition iso : string := "2026-11-03T04:05:07.000Z".

(** Logging interleaved with changes to the environment. *)
Definition session : list Op :=
  [ Call error "first" (clock 0) Sample.stack;
    SetEnv "LOG_LEVEL" "error";
    Call debug "second" (clock 1) Sample.stack;
    DeleteEnv "ENABLE_DEBUG";
    Call info "third" (clock 2) Sample.stack ].

End Started.

(** ** The caller, in the words of the specification *)

Module Attribution.

Import Logger.

(** A frame the loop passes over, spelled out: it is missing, or its file
    name is null or empty, or its file name has one of the two markers
    somewhere in it. *)
Definition passed_over (frame : option StackFrame) : Prop :=
  match frame with
  | None => True
  | Some fr =>
      match getFileName fr with
      | None => True
      | Some name =>
          name = "" \/
          includes "node_modules" name = true \/
          includes "util/logger" name = true
      end
  end.

(** Third-party library code: a file below a directory named
    [node_modules]. *)
Definition third_party (name : string) : bool :=
  existsb (String.eqb "node_modules") (NodePath.split name).

(** The logger's own implementation: the file [logger.ts], or [logger.js]
    once compiled, of a directory [util]. *)
Definition logger_own (name : string) : bool :=
  match rev (NodePath.split name) with
  | file :: dir :: _ =>
      String.eqb dir "util" &&
      (String.eqb file "logger.ts" || String.eqb file "logger.js")
  | _ => false
  end.

(** The file of a frame when it is neither the logger's own nor library
    code. *)
Definition outside (frame : option StackFrame) : option string :=
  match frame with
  | Some fr =>
      match getFileName fr with
      | Some name =>
          if truthy name && negb (third_party name) && negb (logger_own name)
          then Some name else None
      | None => None
      end
  | None => None
  end.

Fixpoint first_outside (trace : Trace) : option string :=
  match trace with
  | [] => None
  | frame :: rest =>
      match outside frame with
      | Some name => Some name
      | None => first_outside rest
      end
  end.

(** The location the specification describes: the path, relative to the
    working directory, of the first frame outside the logger and the
    libraries, or the fallback literal. *)
Definition described_caller (path_relative : string -> string -> string)
    (cwd : string) (trace : Trace) : string :=
  match first_outside trace with
  | Some name => path_relative cwd name
  | None => fallback
  end.

(** A handler that logs through a helper of the application kept in
    [myutil/logger-client.js]. *)
Definition stack_with_client : Trace :=
  [ Sample.frame "/srv/app/dist/util/logger.js";
    Sample.frame "/srv/app/node_modules/winston/lib/winston/logger.js";
    Sample.frame "/srv/app/dist/myutil/logger-client.js";
    Sample.frame "/srv/app/dist/routes/root.js" ].

(** The same kind of stack with the file names as module URLs. *)
Definition stack_of_urls : Trace :=
  [ Sample.frame "file:///srv/app/dist/util/logger.js";
    Sample.frame "file:///srv/app/node_modules/winston/lib/winston/logger.js";
    Sample.frame "file:///srv/app/dist/routes/root.js" ].

End Attribution.

(** ** The environment of a running process *)

Module Environment.

Import Logger.





End Environment.

(** * Properties *)

Import Logger Winston Env.

(** ** Strings *)

Lemma append_cons (x : ascii) (a b : string) : String x a +:+ b = String x (a +:+ b).
Proof. reflexivity. Qed.

Lemma append_nil_l (b : string) : "" +:+ b = b.
Proof. reflexivity. Qed.

(** Push every append through the characters that are known. *)
Ltac push_append := repeat (rewrite append_cons || rewrite append_nil_l).

Lemma append_assoc (a b c : string) : (a +:+ b) +:+ c = a +:+ (b +:+ c).
Proof. induction a as [|x a IH]; push_append; [reflexivity | now rewrite IH]. Qed.

Lemma append_nil_r (a : string) : a +:+ "" = a.
Proof. induction a as [|x a IH]; push_append; [reflexivity | now rewrite IH]. Qed.

(** ** Stripping colour sequences *)

Import Ansi.

Lemma plain_append (a b : string) : plain (a +:+ b) = plain a && plain b.
Proof.
  induction a as [|x a IH]; push_append; simpl; [reflexivity|].
  rewrite IH. now rewrite andb_assoc.
Qed.

Lemma strip_plain_prefix (a s : string) :
  plain a = true -> strip (a +:+ s) = a +:+ strip s.
Proof.
  unfold strip. induction a as [|x a IH]; push_append; simpl; [reflexivity|].
  intros H. apply andb_prop in H as [Hx Ha]. apply negb_true_iff in Hx.
  rewrite Hx. now rewrite IH.
Qed.

Lemma strip_plain (a : string) : plain a = true -> strip a = a.
Proof.
  intros H. rewrite <- (append_nil_r a) at 1. rewrite strip_plain_prefix by assumption.
  apply append_nil_r.
Qed.

(** A closing bracket ends whatever the scanner was holding back: the text
    before it and the text after it are stripped independently. *)
Lemma strip_from_bracket (p s : string) : forall st,
  strip_from st (p +:+ String "]" s) = strip_from st p +:+ String "]" (strip s).
Proof.
  unfold strip.
  induction p as [|c p IH]; intros st.
  - destruct st; reflexivity.
  - push_append. destruct st; cbn [strip_from].
    + destruct (Ascii.eqb c ESC); [apply IH | now rewrite IH].
    + destruct (Ascii.eqb c "["); [apply IH|].
      destruct (Ascii.eqb c ESC); rewrite IH, append_assoc; reflexivity.
    + destruct (is_param c); [apply IH|].
      destruct (Ascii.eqb c "m"); [apply IH|].
      destruct (Ascii.eqb c ESC); rewrite IH, append_assoc; reflexivity.
Qed.

Lemma strip_bracket (p s : string) :
  strip (p +:+ String "]" s) = strip p +:+ String "]" (strip s).
Proof. apply strip_from_bracket. Qed.

(** ** Timestamps *)

Import Fecha.

Lemma string_of_uint_digits (d : Decimal.uint) :
  all_digits (NilEmpty.string_of_uint d) = true.
Proof. induction d; simpl; auto. Qed.

Lemma string_of_nat_digits (n : nat) : all_digits (string_of_nat n) = true.
Proof. apply string_of_uint_digits. Qed.

Lemma zeros_digits (n : nat) : all_digits (zeros n) = true.
Proof. induction n; simpl; auto. Qed.

Lemma all_digits_append (a b : string) :
  all_digits (a +:+ b) = all_digits a && all_digits b.
Proof.
  induction a as [|x a IH]; push_append; simpl; [reflexivity|].
  rewrite IH. now rewrite andb_assoc.
Qed.

Lemma pad_digits (n len : nat) : all_digits (pad n len) = true.
Proof.
  unfold pad. now rewrite all_digits_append, zeros_digits, string_of_nat_digits.
Qed.

Lemma digit_plain (c : ascii) : is_digit c = true -> Ascii.eqb c ESC = false.
Proof.
  unfold is_digit. intros H. destruct (Ascii.eqb_spec c ESC) as [->|]; [|reflexivity].
  discriminate H.
Qed.

Lemma all_digits_plain (s : string) : all_digits s = true -> plain s = true.
Proof.
  induction s as [|c s IH]; simpl; [reflexivity|].
  intros H. apply andb_prop in H as [Hc Hs]. now rewrite digit_plain, IH.
Qed.

Lemma pad_plain (n len : nat) : plain (pad n len) = true.
Proof. apply all_digits_plain, pad_digits. Qed.

Lemma format_plain (d : DateTime) : plain (format d) = true.
Proof. unfold format. rewrite !plain_append, !pad_plain. reflexivity. Qed.

Lemma length_append (a b : string) :
  String.length (a +:+ b) = String.length a + String.length b.
Proof. induction a as [|x a IH]; push_append; simpl; [reflexivity | now rewrite IH]. Qed.

Lemma length_zeros (n : nat) : String.length (zeros n) = n.
Proof. induction n; simpl; auto. Qed.

Lemma length_pad (n len : nat) :
  String.length (string_of_nat n) <= len -> String.length (pad n len) = len.
Proof. intros H. unfold pad. rewrite length_append, length_zeros. lia. Qed.

(** A string of [n] digits followed by [t] matches [n] digit positions
    followed by the shape of [t]. *)
Lemma matches_digits (s t : string) (sh : list (ascii -> bool)) :
  all_digits s = true ->
  matches (repeat is_digit (String.length s) ++ sh) (s +:+ t) = matches sh t.
Proof.
  induction s as [|c s IH]; push_append; simpl; [reflexivity|].
  intros H. apply andb_prop in H as [-> Hs]. now apply IH.
Qed.

Lemma matches_char (c : ascii) (t : string) (sh : list (ascii -> bool)) :
  matches ((fun x => Ascii.eqb x c) :: sh) (String c t) = matches sh t.
Proof. simpl. now rewrite Ascii.eqb_refl. Qed.

Lemma two_digit_length (n : nat) : n <= 99 -> String.length (string_of_nat n) <= 2.
Proof.
  intros H.
  assert (Hall : forallb (fun k => String.length (string_of_nat k) <=? 2) (seq 0 100) = true)
    by (vm_compute; reflexivity).
  rewrite forallb_forall in Hall. apply Nat.leb_le, Hall, in_seq. lia.
Qed.

Lemma format_is_timestamp (d : DateTime) : civil d -> is_timestamp (format d) = true.
Proof.
  intros (Hy & Hm & Hd & Hh & Hmi & Hs).
  unfold is_timestamp, shape, format.
  pose proof (length_pad (year d) 4 Hy) as Ly.
  pose proof (length_pad (month d) 2 (two_digit_length (month d) ltac:(lia))) as Lm.
  pose proof (length_pad (day d) 2 (two_digit_length (day d) ltac:(lia))) as Ld.
  pose proof (length_pad (hours d) 2 (two_digit_length (hours d) ltac:(lia))) as Lh.
  pose proof (length_pad (minutes d) 2 (two_digit_length (minutes d) ltac:(lia))) as Lmi.
  pose proof (length_pad (seconds d) 2 (two_digit_length (seconds d) ltac:(lia))) as Ls.
  change (?a :: ?b :: ?c :: ?e :: ?rest) with (repeat a 4 ++ rest) at 1.
  rewrite <- Ly at 1. rewrite matches_digits by apply pad_digits.
  push_append. rewrite matches_char.
  repeat match goal with
  | |- matches (is_digit :: is_digit :: ?rest) (pad ?n 2 +:+ ?t) = true =>
      change (is_digit :: is_digit :: rest) with (repeat is_digit 2 ++ rest);
      rewrite <- (length_pad n 2) at 1 by (apply two_digit_length; lia);
      rewrite matches_digits by apply pad_digits;
      push_append; rewrite matches_char
  end.
  rewrite <- (append_nil_r (pad (seconds d) 2)).
  change [is_digit; is_digit] with (repeat is_digit 2 ++ []).
  rewrite <- Ls at 1. rewrite matches_digits by apply pad_digits. reflexivity.
Qed.

(** *** Stripping a formatted record *)

Lemma strip_colored_level (l : LogLevel) (rest : string) :
  strip (colorLevel (level_name l) (toUpperCase (level_name l)) +:+ rest)
  = toUpperCase (level_name l) +:+ strip rest.
Proof. destruct l; reflexivity. Qed.

Lemma strip_sgr_35 (rest : string) : strip (sgr "35" +:+ rest) = strip rest.
Proof. reflexivity. Qed.

Lemma strip_sgr_0 (rest : string) : strip (sgr "0" +:+ rest) = strip rest.
Proof. reflexivity. Qed.

Lemma strip_colored_file (f rest : string) :
  strip (colorFileName (Some f) +:+ rest)
  = (if truthy f then "[" +:+ strip f +:+ "]" else "") +:+ strip rest.
Proof.
  unfold colorFileName. destruct (truthy f); [|reflexivity].
  unfold paint. rewrite !append_assoc, strip_sgr_35.
  rewrite (strip_plain_prefix "[") by reflexivity.
  change ("]" +:+ (sgr "0" +:+ rest)) with (String "]" (sgr "0" +:+ rest)).
  rewrite strip_bracket, strip_sgr_0.
  change (String "]" (strip rest)) with ("]" +:+ strip rest).
  reflexivity.
Qed.

Lemma strip_record (l : LogLevel) (ts message f : string) :
  plain ts = true ->
  strip (ts +:+ record_tail true (level_name l) message f)
  = ts +:+ " [" +:+ toUpperCase (level_name l) +:+ "]" +:+
    (if truthy f then "[" +:+ strip f +:+ "]" else "") +:+ ": " +:+ strip message.
Proof.
  intros Hts. unfold record_tail.
  rewrite strip_plain_prefix by assumption.
  rewrite (strip_plain_prefix " [") by reflexivity.
  rewrite strip_colored_level.
  rewrite (strip_plain_prefix "]") by reflexivity.
  rewrite strip_colored_file.
  rewrite (strip_plain_prefix ": ") by reflexivity.
  reflexivity.
Qed.

(** ** [path.relative] *)

Import NodePath.

Lemma push_segment_nonempty (stack : list string) (seg : string) :
  Forall (fun s => s <> "") stack -> Forall (fun s => s <> "") (push_segment stack seg).
Proof.
  intros H. unfold push_segment.
  destruct (String.eqb_spec seg ""); [assumption|].
  destruct (String.eqb seg "."); [assumption|].
  destruct (String.eqb seg "..").
  - destruct H; simpl; [constructor | assumption].
  - now constructor.
Qed.

Lemma fold_push_nonempty (segs : list string) : forall stack,
  Forall (fun s => s <> "") stack ->
  Forall (fun s => s <> "") (fold_left push_segment segs stack).
Proof.
  induction segs as [|seg segs IH]; intros stack H; simpl; [assumption|].
  apply IH. now apply push_segment_nonempty.
Qed.

Lemma resolve_segments_nonempty (pcwd p : string) :
  Forall (fun s => s <> "") (resolve_segments pcwd p).
Proof.
  unfold resolve_segments, normalize_segments.
  apply Forall_rev, fold_push_nonempty. constructor.
Qed.

Lemma strip_common_same (a : list string) : strip_common a a = ([], []).
Proof.
  induction a as [|x a IH]; simpl; [reflexivity|]. now rewrite String.eqb_refl.
Qed.

Lemma strip_common_nil (a b : list string) : strip_common a b = ([], []) -> a = b.
Proof.
  revert b. induction a as [|x a IH]; intros [|y b]; simpl; try congruence.
  destruct (String.eqb_spec x y) as [->|]; [|congruence].
  intros H. f_equal. now apply IH.
Qed.

Lemma strip_common_suffix (a b f t : list string) :
  strip_common a b = (f, t) -> (exists n, f = drop n a) /\ (exists n, t = drop n b).
Proof.
  revert b. induction a as [|x a IH]; intros b H.
  - simpl in H. injection H as <- <-. split; exists 0; reflexivity.
  - destruct b as [|y b]; simpl in H.
    + injection H as <- <-. split; exists 0; reflexivity.
    + destruct (String.eqb x y).
      * apply IH in H as [[n ->] [k ->]]. split; [exists (S n) | exists (S k)]; reflexivity.
      * injection H as <- <-. split; exists 0; reflexivity.
Qed.

Lemma join_empty (segs : list string) :
  Forall (fun s => s <> "") segs -> join segs = "" -> segs = [].
Proof.
  unfold join. intros H Hj. destruct H as [|x segs Hx _]; [reflexivity|].
  exfalso. destruct x as [|c x]; [now apply Hx|].
  destruct segs; simpl in Hj; discriminate.
Qed.

(** The relative path is empty exactly when both arguments name the same
    place. *)
Lemma relative_empty (pcwd from to : string) :
  relative pcwd from to = "" <->
  resolve_segments pcwd from = resolve_segments pcwd to.
Proof.
  unfold relative. destruct (String.eqb_spec from to) as [->|_]; [tauto|].
  destruct (strip_common _ _) as [f t] eqn:Hc. split.
  - intros Hj. apply join_empty in Hj.
    + apply app_eq_nil in Hj as [Hf ->]. apply map_eq_nil in Hf as ->.
      now apply strip_common_nil.
    + apply Forall_app. split.
      * apply List.Forall_forall. intros s Hs. apply in_map_iff in Hs as [_ [<- _]].
        discriminate.
      * apply strip_common_suffix in Hc as [_ [n ->]].
        apply Forall_drop, resolve_segments_nonempty.
  - intros Heq. rewrite Heq, strip_common_same in Hc. now injection Hc as <- <-.
Qed.

(** ** JavaScript helpers *)

Lemma or_else_some_empty (s : string) : or_else (Some s) "" = s.
Proof.
  unfold or_else, truthy. destruct (String.eqb_spec s ""); simpl; congruence.
Qed.

Lemma or_else_truthy (x : option string) (d : string) :
  truthy d = true -> truthy (or_else x d) = true.
Proof.
  intros Hd. destruct x as [s|]; simpl; [|exact Hd].
  destruct (truthy s) eqn:Hs; auto.
Qed.

Lemma or_else_of_truthy (s d : string) : truthy s = true -> or_else (Some s) d = s.
Proof. intros H. simpl. now rewrite H. Qed.

Lemma truthy_nonempty (s : string) : truthy s = true <-> s <> "".
Proof.
  unfold truthy. destruct (String.eqb_spec s ""); simpl; split; congruence.
Qed.

Lemma Normal_inj {A} (a b : A) : Normal a = Normal b -> a = b.
Proof. congruence. Qed.

(** ** The level table *)

Lemma levels_name (l : LogLevel) : levels !! level_name l = Some (position l all_levels).
Proof. destruct l; reflexivity. Qed.

Lemma levels_known (s : string) (n : nat) :
  levels !! s = Some n -> exists l, s = level_name l.
Proof.
  unfold levels. intros H. apply elem_of_list_to_map_2 in H.
  repeat (apply elem_of_cons in H as [H|H];
          [injection H as -> _;
           first [ now exists error | now exists warn | now exists info | now exists http
                 | now exists verbose | now exists debug | now exists silly ] |]).
  inversion H.
Qed.

Lemma level_enabled_names (threshold l : LogLevel) :
  level_enabled (level_name threshold) (level_name l) = at_or_below threshold l.
Proof. unfold level_enabled. now rewrite !levels_name. Qed.

Lemma level_enabled_listed (threshold lvl : string) :
  level_enabled threshold lvl = true -> array_includes fileNameLogLevels threshold = true.
Proof.
  unfold level_enabled. destruct (levels !! threshold) as [t|] eqn:Ht; [|discriminate].
  intros _. apply levels_known in Ht as [l ->]. now destruct l.
Qed.

(** ** The environment *)

Lemma env_logLevel_truthy (penv : gmap string string) :
  truthy (logLevel (debugging (env penv))) = true.
Proof. simpl. now apply or_else_truthy. Qed.

Lemma env_enabled (penv : gmap string string) :
  penv !! "ENABLE_DEBUG" <> Some "false" -> enableDebug (debugging (env penv)) = true.
Proof. intros H. simpl. now rewrite bool_decide_eq_false_2. Qed.

Lemma env_disabled (penv : gmap string string) :
  penv !! "ENABLE_DEBUG" = Some "false" -> enableDebug (debugging (env penv)) = false.
Proof. intros H. simpl. now rewrite bool_decide_eq_true_2. Qed.

Lemma env_logLevel_given (penv : gmap string string) (v : string) :
  penv !! "LOG_LEVEL" = Some v -> v <> "" -> logLevel (debugging (env penv)) = v.
Proof.
  intros H Hv. simpl. rewrite H. apply or_else_of_truthy. now apply truthy_nonempty.
Qed.

Lemma configure_level (e : EnvConfig) :
  truthy (logLevel (debugging e)) = true ->
  level (logger (configure e)) = logLevel (debugging e).
Proof.
  intros H. unfold configure.
  destruct (enableDebug (debugging e)); simpl; now rewrite H.
Qed.

Lemma configure_transports (e : EnvConfig) :
  transports (logger (configure e))
  = [ {| silent := negb (enableDebug (debugging e)) |} ].
Proof. unfold configure. now destruct (enableDebug (debugging e)). Qed.

Lemma write_configure (e : EnvConfig) (lvl line : string) :
  truthy (logLevel (debugging e)) = true ->
  write (logger (configure e)) lvl line
  = if enableDebug (debugging e) && level_enabled (logLevel (debugging e)) lvl
    then [line] else [].
Proof.
  intros H. unfold write. rewrite configure_transports, configure_level by assumption.
  simpl. destruct (enableDebug (debugging e)); simpl; [|reflexivity].
  now destruct (level_enabled _ _).
Qed.

(** ** The caller of a log call *)

Section Caller.

Variable path_relative : string -> string -> string.
Variable cwd : string.

Local Abbreviation getCallerFile := (Logger.getCallerFile path_relative cwd).
Local Abbreviation walk := (Logger.walk path_relative cwd).
Local Abbreviation printf := (Logger.printf path_relative cwd).
Local Abbreviation log := (Logger.log path_relative cwd).
Local Abbreviation emit := (Logger.emit path_relative cwd).
Local Abbreviation load := (Logger.load path_relative cwd).
Local Abbreviation step := (Logger.step path_relative cwd).
Local Abbreviation run := (Logger.run path_relative cwd).
Local Abbreviation boot := (Logger.boot path_relative cwd).

Lemma getCallerFile_cons_skipped frame rest :
  skipped frame -> getCallerFile (frame :: rest) = getCallerFile rest.
Proof.
  unfold skipped. destruct frame as [f|]; simpl; [|reflexivity].
  intros ->. reflexivity.
Qed.

Lemma getCallerFile_cons_accepted name rest :
  accepted (Some name) = true ->
  getCallerFile (Some {| getFileName := Some name |} :: rest)
  = Normal (path_relative cwd name).
Proof. simpl. intros ->. reflexivity. Qed.

Lemma getCallerFile_walk trace : exists r, getCallerFile trace = Normal r /\ walk trace r.
Proof.
  induction trace as [|frame rest [r [Hr Hw]]].
  - exists fallback. split; [reflexivity | constructor; constructor].
  - destruct (accepted (frame ≫= getFileName)) eqn:Hacc.
    + destruct frame as [[[name|]]|]; simpl in Hacc; try discriminate.
      exists (path_relative cwd name). split.
      * now apply getCallerFile_cons_accepted.
      * apply (walk_found _ _ [] name rest); [constructor | assumption].
    + exists r. split.
      * now rewrite getCallerFile_cons_skipped.
      * destruct Hw as [pre name post Hpre Hname | trace Hall].
        -- apply (walk_found _ _ (frame :: pre) name post); [constructor|]; assumption.
        -- apply walk_exhausted. constructor; assumption.
Qed.

Lemma walk_functional trace r1 r2 : walk trace r1 -> walk trace r2 -> r1 = r2.
Proof.
  intros H1 H2.
  destruct (getCallerFile_walk trace) as [r [Hr _]].
  assert (Hdet : forall r', walk trace r' -> getCallerFile trace = Normal r').
  { clear. intros r' Hw. destruct Hw as [pre name post Hpre Hname | trace Hall].
    - induction Hpre as [|frame pre Hf _ IH].
      + now apply getCallerFile_cons_accepted.
      + rewrite <- app_comm_cons, getCallerFile_cons_skipped by assumption. exact IH.
    - induction Hall as [|frame rest Hf _ IH]; [reflexivity|].
      now rewrite getCallerFile_cons_skipped. }
  apply Hdet in H1, H2. congruence.
Qed.

(** ** Formatting and writing one record *)

Lemma printf_value should ts lvl msg trace :
  exists f, getCallerFile trace = Normal f /\
    printf should {| info_timestamp := Some ts; info_level := Some lvl;
                     info_message := Some msg |} trace
    = Normal (ts +:+ record_tail should lvl msg f).
Proof.
  destruct (getCallerFile_walk trace) as [f [Hf _]]. exists f. split; [exact Hf|].
  unfold Logger.printf, record_tail.
  cbn [info_timestamp info_level info_message].
  rewrite !or_else_some_empty.
  destruct should; [rewrite Hf|]; reflexivity.
Qed.

Lemma log_value m lvl msg now trace :
  exists f, getCallerFile trace = Normal f /\
    log m lvl msg now trace
    = Normal (write (logger m) lvl
                (Fecha.format now +:+ record_tail (shouldLogFileName m) lvl msg f)).
Proof.
  destruct (printf_value (shouldLogFileName m) (Fecha.format now) lvl msg trace)
    as [f [Hf Hp]].
  exists f. split; [exact Hf|]. unfold Logger.log. now rewrite Hp.
Qed.


Lemma emit_configured penv l msg now trace :
  exists f, getCallerFile trace = Normal f /\
    emit (configure (env penv)) l msg now trace
    = Normal (if enableDebug (debugging (env penv))
                 && level_enabled (logLevel (debugging (env penv))) (level_name l)
              then [Fecha.format now +:+
                    record_tail (shouldLogFileName (configure (env penv)))
                                (level_name l) msg f]
              else []).
Proof.
  destruct (log_value (configure (env penv)) (level_name l) msg now trace) as [f [Hf Hl]].
  exists f. split; [exact Hf|]. unfold Logger.emit. rewrite Hl.
  now rewrite write_configure by apply env_logLevel_truthy.
Qed.

(** ** The process: nothing after start-up touches the configuration *)

Lemma step_keeps w op :
  exists w', step w op = Normal w' /\
    env_module w' = env_module w /\ logger_module w' = logger_module w.
Proof.
  destruct op as [l msg now trace | k v | k]; simpl; eauto.
  unfold Logger.emit.
  destruct (log_value (logger_module w) (level_name l) msg now trace) as [f [_ ->]].
  simpl. eauto.
Qed.

Lemma run_keeps ops : forall w,
  exists w', run w ops = Normal w' /\
    env_module w' = env_module w /\ logger_module w' = logger_module w.
Proof.
  induction ops as [|op ops IH]; intros w; simpl; [eauto|].
  destruct (step_keeps w op) as (w1 & -> & He & Hm). simpl.
  destruct (IH w1) as (w2 & Hr & He2 & Hm2). exists w2. repeat split; congruence.
Qed.

Lemma load_value e now trace :
  exists out, load e now trace = Normal (configure e, out) /\
    log (configure e) "info" init_message now trace = Normal out.
Proof.
  unfold Logger.load.
  destruct (log_value (configure e) "info" init_message now trace) as [f [_ Hl]].
  rewrite Hl. simpl. eauto.
Qed.

Lemma boot_value penv now trace :
  exists out, load (env penv) now trace = Normal (configure (env penv), out) /\
    boot penv now trace
    = Normal {| process_env := penv; env_module := env penv;
                logger_module := configure (env penv); stdout := out |}.
Proof.
  destruct (load_value (env penv) now trace) as (out & Hl & _).
  exists out. split; [exact Hl|]. unfold Logger.boot. now rewrite Hl.
Qed.

Lemma run_silent ops : forall w,
  (forall lvl line, write (logger (logger_module w)) lvl line = []) ->
  exists w', run w ops = Normal w' /\ stdout w' = stdout w.
Proof.
  induction ops as [|op ops IH]; intros w Hq; simpl; [eauto|].
  assert (exists w1, step w op = Normal w1 /\ stdout w1 = stdout w
                     /\ logger_module w1 = logger_module w) as (w1 & -> & Ho & Hm).
  { destruct op as [l msg now trace | k v | k]; simpl; eauto.
    unfold Logger.emit.
    destruct (log_value (logger_module w) (level_name l) msg now trace) as [f [_ ->]].
    simpl. rewrite Hq, app_nil_r. eauto. }
  simpl. destruct (IH w1) as (w2 & Hr & Ho2); [now rewrite Hm|].
  exists w2. split; congruence.
Qed.

(** ** The claims *)

Lemma skipped_passed_over frame : skipped frame <-> Attribution.passed_over frame.
Proof.
  unfold skipped, Attribution.passed_over.
  destruct frame as [[[name|]]|]; simpl; try tauto.
  unfold truthy. destruct (String.eqb_spec name "") as [->|Hne]; simpl; [tauto|].
  destruct (includes "node_modules" name), (includes "util/logger" name); simpl;
    split; auto; intros [H|[H|H]]; congruence.
Qed.

(** C5, as the code has it. For every call stack, [getCallerFile] walks the
    frames from the innermost outward and returns [path.relative] of the
    working directory and the file name of the first frame whose file name
    is present, not empty, and has neither [node_modules] nor [util/logger]
    anywhere in it; every frame before that one is missing, or has a null
    or empty file name, or has one of the two markers in its file name.
    When every frame of the stack is of that kind it returns exactly
    "unknown file path". *)
Theorem getCallerFile_first_unmarked_frame (trace : Trace) :
  (exists pre name post,
      trace = pre ++ Some {| getFileName := Some name |} :: post /\
      Forall Attribution.passed_over pre /\
      name <> "" /\
      includes "node_modules" name = false /\
      includes "util/logger" name = false /\
      getCallerFile trace = Normal (path_relative cwd name))
  \/ (Forall Attribution.passed_over trace /\
      getCallerFile trace = Normal "unknown file path").
Proof.
  destruct (getCallerFile_walk trace) as [r [Hr Hw]].
  destruct Hw as [pre name post Hpre Hname | trace Hall].
  - left. exists pre, name, post. simpl in Hname.
    apply andb_prop in Hname as [Hname Hlogger].
    apply andb_prop in Hname as [Hname Hmodules].
    apply truthy_nonempty in Hname.
    apply negb_true_iff in Hlogger, Hmodules.
    repeat split; auto.
    eapply Forall_impl; [exact Hpre|]. intros frame. apply skipped_passed_over.
  - right. split; [|exact Hr].
    eapply Forall_impl; [exact Hall|]. intros frame. apply skipped_passed_over.
Qed.

(** C1. With the logger enabled and [LOG_LEVEL] set to one of the seven
    severity names, a call at any of the seven levels with any message puts
    exactly one line on standard output when the configured severity is at
    or below the call's level in the ordering
    [error > warn > info > http > verbose > debug > silly], and none when it
    is strictly above. *)
Theorem level_filtering (penv : gmap string string) (threshold l : LogLevel)
    (message : string) (now : Fecha.DateTime) (trace : Trace) :
  penv !! "LOG_LEVEL" = Some (level_name threshold) ->
  penv !! "ENABLE_DEBUG" <> Some "false" ->
  exists out,
    emit (configure (env penv)) l message now trace = Normal out /\
    length out = if at_or_below threshold l then 1 else 0.
Proof.
  intros Hlevel Henabled.
  destruct (emit_configured penv l message now trace) as [f [_ He]].
  rewrite He, env_enabled by assumption.
  rewrite (env_logLevel_given penv (level_name threshold)) by (auto; now destruct threshold).
  rewrite level_enabled_names. simpl.
  destruct (at_or_below threshold l); eauto.
Qed.

(** C2. With [ENABLE_DEBUG] equal to the literal "false", nothing is ever
    written: not by the start-up record, not by any later call at any level,
    whatever [LOG_LEVEL] holds and whatever happens to the environment
    afterwards. With any other value, or none, the flag is true and the
    console transport is left as created, not silent. *)
Theorem enable_debug_switch (penv : gmap string string) :
  (penv !! "ENABLE_DEBUG" = Some "false" ->
   forall now trace ops, exists w0 w,
     boot penv now trace = Normal w0 /\ run w0 ops = Normal w /\ stdout w = [])
  /\ (penv !! "ENABLE_DEBUG" <> Some "false" ->
      enableDebug (debugging (env penv)) = true /\
      transports (logger (configure (env penv))) = [Console]).
Proof.
  split.
  - intros Hoff now trace ops.
    assert (Hq : forall lvl line, write (logger (configure (env penv))) lvl line = []).
    { intros lvl line. rewrite write_configure by apply env_logLevel_truthy.
      now rewrite env_disabled. }
    destruct (boot_value penv now trace) as (out & Hload & Hboot).
    destruct (load_value (env penv) now trace) as (out' & Hload' & Hlog).
    assert (out' = out) as -> by congruence.
    destruct (log_value (configure (env penv)) "info" init_message now trace)
      as [f [_ Hl]].
    rewrite Hl, Hq in Hlog. injection Hlog as <-.
    set (w0 := {| process_env := penv; env_module := env penv;
                  logger_module := configure (env penv); stdout := [] |}) in *.
    destruct (run_silent ops w0 Hq) as (w & Hr & Ho).
    exists w0, w. auto.
  - intros Hon. split; [now apply env_enabled|].
    rewrite configure_transports, env_enabled by assumption. reflexivity.
Qed.


(** C7. Evaluating the logger module makes exactly one logging call, at
    level info, with the text announcing the set-up. What it writes is what
    the operation [info] writes on the configured module: at most one line,
    none when [ENABLE_DEBUG] is "false", none when the configured severity
    is more severe than info, and one line otherwise. *)
Theorem initialization_record (penv : gmap string string)
    (now : Fecha.DateTime) (trace : Trace) :
  exists out,
    load (env penv) now trace = Normal (configure (env penv), out) /\
    emit (configure (env penv)) info init_message now trace = Normal out /\
    length out <= 1 /\
    (penv !! "ENABLE_DEBUG" = Some "false" -> out = []) /\
    (forall threshold,
       penv !! "LOG_LEVEL" = Some (level_name threshold) ->
       at_or_below threshold info = false -> out = []) /\
    (penv !! "ENABLE_DEBUG" <> Some "false" ->
     forall threshold,
       penv !! "LOG_LEVEL" = Some (level_name threshold) ->
       at_or_below threshold info = true ->
       exists f, getCallerFile trace = Normal f /\
         out = [Fecha.format now +:+ record_tail true "info" init_message f]).
Proof.
  destruct (load_value (env penv) now trace) as (out & Hload & Hlog).
  exists out. split; [exact Hload|]. split; [exact Hlog|].
  destruct (emit_configured penv info init_message now trace) as [f [Hf He]].
  unfold Logger.emit in He. simpl level_name in He. rewrite Hlog in He.
  apply Normal_inj in He. subst out.
  split; [|split; [|split]].
  - destruct (_ && _); simpl; lia.
  - intros Hoff. now rewrite env_disabled.
  - intros threshold Hlevel Habove.
    rewrite (env_logLevel_given penv (level_name threshold))
      by (auto; now destruct threshold).
    change "info" with (level_name info).
    now rewrite level_enabled_names, Habove, andb_false_r.
  - intros Hon threshold Hlevel Hbelow. exists f. split; [exact Hf|].
    rewrite env_enabled by assumption.
    assert (Hl : logLevel (debugging (env penv)) = level_name threshold)
      by (apply env_logLevel_given; auto; now destruct threshold).
    change "info" with (level_name info) at 1.
    rewrite Hl, level_enabled_names, Hbelow. simpl andb. cbv iota.
    do 3 f_equal. unfold configure. cbn [shouldLogFileName]. rewrite Hl.
    now destruct threshold.
Qed.




(** C3, as the code has it. When [LOG_LEVEL] is absent or empty the
    threshold is silly, and then, the logger being enabled, every call at
    every level writes its line. A non-empty value is taken as the threshold
    as it stands, whether or not it names a severity. *)
Theorem log_level_default (penv : gmap string string) :
  ((penv !! "LOG_LEVEL" = None \/ penv !! "LOG_LEVEL" = Some "") ->
   level (logger (configure (env penv))) = "silly" /\
   (penv !! "ENABLE_DEBUG" <> Some "false" ->
    forall l message now trace, exists line,
      emit (configure (env penv)) l message now trace = Normal [line]))
  /\ (forall v, penv !! "LOG_LEVEL" = Some v -> v <> "" ->
      level (logger (configure (env penv))) = v).
Proof.
  split.
  - intros Hdefault.
    assert (Hl : logLevel (debugging (env penv)) = "silly")
      by (simpl; destruct Hdefault as [-> | ->]; reflexivity).
    split.
    + rewrite configure_level by apply env_logLevel_truthy. exact Hl.
    + intros Hon l message now trace.
      destruct (emit_configured penv l message now trace) as [f [_ He]].
      rewrite He, Hl, env_enabled by assumption.
      change "silly" with (level_name silly) at 1.
      rewrite level_enabled_names. destruct l; simpl; eauto.
  - intros v Hv Hne. rewrite configure_level by apply env_logLevel_truthy.
    now apply env_logLevel_given.
Qed.


(** A line reaches the output only under a threshold that is on the
    allow-list, and it is the timestamp followed by the formatted record. *)
Lemma emitted_line penv l message now trace line :
  emit (configure (env penv)) l message now trace = Normal [line] ->
  shouldLogFileName (configure (env penv)) = true /\
  exists f,
    getCallerFile trace = Normal f /\ walk trace f /\
    line = Fecha.format now +:+ record_tail true (level_name l) message f.
Proof.
  intros He.
  destruct (emit_configured penv l message now trace) as [f [Hf He']].
  rewrite He' in He. apply Normal_inj in He.
  destruct (enableDebug (debugging (env penv))); [|discriminate He].
  destruct (level_enabled _ _) eqn:Hen; [|discriminate He].
  apply level_enabled_listed in Hen.
  assert (Hs : shouldLogFileName (configure (env penv)) = true).
  { unfold configure. cbn [shouldLogFileName]. exact Hen. }
  split; [exact Hs|]. exists f. split; [exact Hf|]. split.
  - destruct (getCallerFile_walk trace) as [r [Hr Hw]]. congruence.
  - rewrite Hs in He. simpl in He. congruence.
Qed.

(** C4, as the code has it. Every line that is written, at every level and
    under every configuration, was formatted with the allow-list check
    passed, since the allow-list holds all seven names and only a threshold
    among them lets a line through. Its file-path part is built from the
    outcome of the stack walk, the relative path of the first accepted
    frame or the fallback literal: the bracket with that text when the text
    is not empty, and nothing at all when [path.relative] gave the empty
    string. *)
Theorem file_path_bracket (penv : gmap string string) (l : LogLevel)
    (message : string) (now : Fecha.DateTime) (trace : Trace) (line : string) :
  emit (configure (env penv)) l message now trace = Normal [line] ->
  (forall l', array_includes fileNameLogLevels (level_name l') = true) /\
  shouldLogFileName (configure (env penv)) = true /\
  exists f,
    getCallerFile trace = Normal f /\
    walk trace f /\
    line = Fecha.format now +:+ " [" +:+
           colorLevel (level_name l) (toUpperCase (level_name l)) +:+ "]" +:+
           (if truthy f then paint "35" ("[" +:+ f +:+ "]") else "") +:+
           ": " +:+ message /\
    (f <> "" -> has_path_bracket line f).
Proof.
  intros He. apply emitted_line in He as (Hs & f & Hf & Hw & ->).
  split; [now intros []|]. split; [exact Hs|].
  exists f. split; [exact Hf|]. split; [exact Hw|]. split.
  - reflexivity.
  - intros Hne. apply truthy_nonempty in Hne.
    unfold has_path_bracket, record_tail, colorFileName. rewrite Hne.
    exists (Fecha.format now +:+ " [" +:+
            colorLevel (level_name l) (toUpperCase (level_name l)) +:+ "]"),
           (": " +:+ message).
    now rewrite !append_assoc.
Qed.

(** C6, as the code has it. Every line that is written reads, once the
    colour sequences are removed, as the timestamp of the call in the
    pattern [YYYY-MM-DD HH:mm:ss], a space, the upper-cased level name in
    brackets, the caller path in brackets when that path is not empty (and
    nothing when it is), a colon, a space and the message. For a civil date
    the timestamp has the shape [dddd-dd-dd dd:dd:dd]. *)
Theorem line_structure (penv : gmap string string) (l : LogLevel)
    (message : string) (now : Fecha.DateTime) (trace : Trace) (line : string) :
  emit (configure (env penv)) l message now trace = Normal [line] ->
  exists f,
    getCallerFile trace = Normal f /\
    walk trace f /\
    Ansi.strip line
    = Fecha.format now +:+ " [" +:+ toUpperCase (level_name l) +:+ "]" +:+
      (if truthy f then "[" +:+ Ansi.strip f +:+ "]" else "") +:+
      ": " +:+ Ansi.strip message /\
    (Fecha.civil now -> Fecha.is_timestamp (Fecha.format now) = true).
Proof.
  intros He. apply emitted_line in He as (_ & f & Hf & Hw & ->).
  exists f. split; [exact Hf|]. split; [exact Hw|]. split.
  - apply strip_record, format_plain.
  - apply format_is_timestamp.
Qed.

End Caller.

(** C10, as the code has it. On every stack, with frames missing or file
    names null, [getCallerFile] completes normally: a missing frame is
    passed over before anything is read from it. The result is exactly
    "unknown file path", or [path.relative] of the working directory and the
    file name of a frame of the stack; that path is the empty string
    exactly when the file name resolves to the working directory itself. *)
Theorem getCallerFile_total (pcwd : string) (trace : Trace) :
  exists r,
    getCallerFile (NodePath.relative pcwd) pcwd trace = Normal r /\
    (r = "unknown file path" \/
     exists name,
       In (Some {| getFileName := Some name |}) trace /\
       name <> "" /\
       r = NodePath.relative pcwd pcwd name /\
       (r = "" <->
        NodePath.resolve_segments pcwd pcwd = NodePath.resolve_segments pcwd name)).
Proof.
  destruct (getCallerFile_walk (NodePath.relative pcwd) pcwd trace) as [r [Hr Hw]].
  exists r. split; [exact Hr|].
  destruct Hw as [pre name post _ Hname | ? _]; [right | now left].
  exists name. split; [apply in_elt|]. split.
  - simpl in Hname. apply andb_prop in Hname as [Hname _].
    apply andb_prop in Hname as [Hname _]. now apply truthy_nonempty.
  - split; [reflexivity | apply relative_empty].
Qed.

(** ** Concrete runs *)

Example getCallerFile_route_handler :
  getCallerFile Sample.relative Sample.cwd Sample.stack = Normal "dist/routes/root.js".
Proof. reflexivity. Qed.

Example getCallerFile_nothing_outside :
  getCallerFile Sample.relative Sample.cwd Sample.stack_inside
  = Normal "unknown file path".
Proof. reflexivity. Qed.

Example bogus_threshold_writes_nothing :
  emit Sample.relative Sample.cwd (configure (env Sample.bogus)) error "boom"
       Sample.now Sample.stack = Normal [].
Proof. vm_compute. reflexivity. Qed.

Example stripped_line_route_handler :
  fmap (M := completion) (map Ansi.strip)
    (emit Sample.relative Sample.cwd (configure (env Sample.unset)) info "hello"
          Sample.now Sample.stack)
  = Normal ["2026-11-03 04:05:06 [INFO][dist/routes/root.js]: hello"].
Proof. vm_compute. reflexivity. Qed.

(** *** Lines without the bracket *)

Lemma prefix_append (a b : string) : String.prefix a (a +:+ b) = true.
Proof.
  induction a as [|x a IH]; push_append; simpl; [now destruct b|].
  destruct (ascii_dec x x); [exact IH | contradiction].
Qed.

Lemma includes_unfold (needle hay : string) :
  includes needle hay
  = String.prefix needle hay ||
    match hay with
    | EmptyString => false
    | String _ hay' => includes needle hay'
    end.
Proof. destruct hay; reflexivity. Qed.

Lemma includes_middle (needle before after : string) :
  includes needle (before +:+ needle +:+ after) = true.
Proof.
  induction before as [|x before IH]; push_append.
  - now rewrite includes_unfold, prefix_append.
  - rewrite includes_unfold, IH. apply orb_true_r.
Qed.

Lemma has_path_bracket_purple (line f : string) :
  has_path_bracket line f -> includes (sgr "35") line = true.
Proof.
  intros (before & after & ->). unfold paint. rewrite !append_assoc.
  apply includes_middle.
Qed.

(** The line written for a call whose caller resolves to the working
    directory. *)
Lemma line_at_cwd :
  emit Sample.relative Sample.cwd (configure (env Sample.unset)) silly "boom"
       Sample.now Sample.stack_at_cwd
  = Normal [Fecha.format Sample.now +:+ " [" +:+ paint "90" "SILLY" +:+ "]: boom"].
Proof. vm_compute. reflexivity. Qed.

(** *** Counterexamples *)

(** C3 does not hold as stated: a value of [LOG_LEVEL] that names no
    severity is not replaced by silly. *)
Lemma log_level_not_validated :
  ~ (forall penv : gmap string string,
       (penv !! "LOG_LEVEL" = None \/
        forall l, penv !! "LOG_LEVEL" <> Some (level_name l)) ->
       level (logger (configure (env penv))) = "silly").
Proof.
  intros H. specialize (H Sample.bogus).
  assert (Hb : level (logger (configure (env Sample.bogus))) = "bogus")
    by (vm_compute; reflexivity).
  rewrite Hb in H. enough ("bogus" = "silly") by discriminate.
  apply H. right. intros l Hl. vm_compute in Hl. destruct l; discriminate Hl.
Qed.

(** C4 does not hold as stated: with the default configuration, a call whose
    caller resolves to the working directory writes a line that carries no
    file-path bracket at all. *)
Lemma bracket_dropped_at_cwd :
  exists line,
    emit Sample.relative Sample.cwd (configure (env Sample.unset)) silly "boom"
         Sample.now Sample.stack_at_cwd = Normal [line] /\
    forall f, ~ has_path_bracket line f.
Proof.
  eexists. split; [exact line_at_cwd|].
  intros f Hf. apply has_path_bracket_purple in Hf. vm_compute in Hf. discriminate Hf.
Qed.

(** C6 does not hold as stated: the same line, with its colours removed, is
    the timestamp, the level and the message, with no bracketed path between
    the level and the colon. *)
Lemma stripped_line_without_path :
  exists line,
    emit Sample.relative Sample.cwd (configure (env Sample.unset)) silly "boom"
         Sample.now Sample.stack_at_cwd = Normal [line] /\
    Ansi.strip line = "2026-11-03 04:05:06 [SILLY]: boom" /\
    forall p,
      Ansi.strip line
      <> Fecha.format Sample.now +:+ " [" +:+ toUpperCase (level_name silly) +:+
         "][" +:+ p +:+ "]: " +:+ "boom".
Proof.
  eexists. split; [exact line_at_cwd|].
  assert (Hs : Ansi.strip (Fecha.format Sample.now +:+ " [" +:+ paint "90" "SILLY" +:+
                           "]: boom")
               = "2026-11-03 04:05:06 [SILLY]: boom") by (vm_compute; reflexivity).
  split; [exact Hs|].
  intros p Hp. rewrite Hs in Hp.
  apply (f_equal (String.get 27)) in Hp. vm_compute in Hp. discriminate Hp.
Qed.

(** C10 does not hold as stated: for a frame whose file name is the working
    directory the result is the empty string. *)
Lemma getCallerFile_empty_at_cwd :
  getCallerFile Sample.relative Sample.cwd Sample.stack_at_cwd = Normal "".
Proof. reflexivity. Qed.

(** *** Witnesses *)

Lemma level_filtering_witness :
  Sample.at_http !! "LOG_LEVEL" = Some (level_name http) /\
  Sample.at_http !! "ENABLE_DEBUG" <> Some "false" /\
  (exists out,
     emit Sample.relative Sample.cwd (configure (env Sample.at_http)) error "boom"
          Sample.now Sample.stack = Normal out /\
     length out = 1) /\
  (exists out,
     emit Sample.relative Sample.cwd (configure (env Sample.at_http)) debug "boom"
          Sample.now Sample.stack = Normal out /\
     length out = 0).
Proof.
  assert (H1 : Sample.at_http !! "LOG_LEVEL" = Some (level_name http)) by reflexivity.
  assert (H2 : Sample.at_http !! "ENABLE_DEBUG" <> Some "false") by discriminate.
  split; [exact H1|]. split; [exact H2|]. split.
  - exact (level_filtering Sample.relative Sample.cwd Sample.at_http http error "boom"
             Sample.now Sample.stack H1 H2).
  - exact (level_filtering Sample.relative Sample.cwd Sample.at_http http debug "boom"
             Sample.now Sample.stack H1 H2).
Defined.

Lemma enable_debug_switch_witness :
  (exists w0 w,
     boot Sample.relative Sample.cwd Sample.disabled Sample.now Sample.stack = Normal w0 /\
     run Sample.relative Sample.cwd w0
         [Call error "boom" Sample.now Sample.stack;
          SetEnv "ENABLE_DEBUG" "true";
          Call silly "again" Sample.now Sample.stack] = Normal w /\
     stdout w = []) /\
  (enableDebug (debugging (env Sample.at_http)) = true /\
   transports (logger (configure (env Sample.at_http))) = [Console]).
Proof.
  split.
  - apply (proj1 (enable_debug_switch Sample.relative Sample.cwd Sample.disabled)).
    reflexivity.
  - apply (proj2 (enable_debug_switch Sample.relative Sample.cwd Sample.at_http)).
    discriminate.
Defined.

Lemma log_level_default_witness :
  (level (logger (configure (env Sample.unset))) = "silly" /\
   exists line,
     emit Sample.relative Sample.cwd (configure (env Sample.unset)) silly "boom"
          Sample.now Sample.stack = Normal [line]) /\
  level (logger (configure (env Sample.bogus))) = "bogus".
Proof.
  split.
  - destruct (proj1 (log_level_default Sample.relative Sample.cwd Sample.unset))
      as [Hl He]; [left; reflexivity|].
    split; [exact Hl|]. apply He. discriminate.
  - apply (proj2 (log_level_default Sample.relative Sample.cwd Sample.bogus) "bogus");
      [reflexivity | discriminate].
Defined.

Lemma file_path_bracket_witness :
  has_path_bracket
    (Fecha.format Sample.now +:+ record_tail true "error" "boom" "dist/routes/root.js")
    "dist/routes/root.js".
Proof.
  destruct (file_path_bracket Sample.relative Sample.cwd Sample.at_http error "boom"
              Sample.now Sample.stack
              (Fecha.format Sample.now +:+
               record_tail true "error" "boom" "dist/routes/root.js"))
    as (_ & _ & f & Hf & _ & _ & Hb); [vm_compute; reflexivity|].
  assert (f = "dist/routes/root.js") as ->
    by (apply Normal_inj; rewrite <- Hf; reflexivity).
  apply Hb. discriminate.
Defined.

Lemma line_structure_witness :
  Ansi.strip
    (Fecha.format Sample.now +:+ record_tail true "error" "boom" "dist/routes/root.js")
  = "2026-11-03 04:05:06 [ERROR][dist/routes/root.js]: boom" /\
  Fecha.is_timestamp (Fecha.format Sample.now) = true.
Proof.
  destruct (line_structure Sample.relative Sample.cwd Sample.at_http error "boom"
              Sample.now Sample.stack
              (Fecha.format Sample.now +:+
               record_tail true "error" "boom" "dist/routes/root.js"))
    as (f & Hf & _ & Hs & Ht); [vm_compute; reflexivity|].
  assert (f = "dist/routes/root.js") as ->
    by (apply Normal_inj; rewrite <- Hf; reflexivity).
  split; [rewrite Hs; vm_compute; reflexivity|].
  apply Ht. unfold Fecha.civil. vm_compute. lia.
Defined.

Lemma initialization_record_witness :
  (exists out,
     load Sample.relative Sample.cwd (env Sample.disabled) Sample.now Sample.stack
     = Normal (configure (env Sample.disabled), out) /\ out = []) /\
  (exists out,
     load Sample.relative Sample.cwd (env Sample.at_error) Sample.now Sample.stack
     = Normal (configure (env Sample.at_error), out) /\ out = []) /\
  (exists out,
     load Sample.relative Sample.cwd (env Sample.at_http) Sample.now Sample.stack
     = Normal (configure (env Sample.at_http), out) /\ length out = 1).
Proof.
  split; [|split].
  - destruct (initialization_record Sample.relative Sample.cwd Sample.disabled
                Sample.now Sample.stack) as (out & Hl & _ & _ & Hoff & _).
    exists out. split; [exact Hl | apply Hoff; reflexivity].
  - destruct (initialization_record Sample.relative Sample.cwd Sample.at_error
                Sample.now Sample.stack) as (out & Hl & _ & _ & _ & Habove & _).
    exists out. split; [exact Hl | apply (Habove error); reflexivity].
  - destruct (initialization_record Sample.relative Sample.cwd Sample.at_http
                Sample.now Sample.stack) as (out & Hl & _ & _ & _ & _ & Hon).
    exists out. split; [exact Hl|].
    destruct (Hon ltac:(discriminate) http eq_refl eq_refl) as (f & _ & ->).
    reflexivity.
Defined.

Lemma getCallerFile_total_witness :
  exists r,
    getCallerFile Sample.relative Sample.cwd Sample.stack = Normal r /\ r <> "".
Proof.
  destruct (getCallerFile_total Sample.cwd Sample.stack) as (r & Hr & _).
  exists r. split; [exact Hr|].
  assert (r = "dist/routes/root.js") as ->
    by (apply Normal_inj; rewrite <- Hr; reflexivity).
  discriminate.
Defined.

(** * Further properties of the code *)

(** ** Colours are cosmetic *)

Lemma strip_from_sgr_0_end (t : string) : forall st,
  strip_from st (t +:+ sgr "0") = strip_from st t.
Proof.
  induction t as [|c t IH]; intros st; push_append.
  - destruct st; [reflexivity | reflexivity |].
    change (sgr "0") with (String ESC "[0m"). cbn [strip_from].
    change (is_param ESC) with false. change (Ascii.eqb ESC "m") with false.
    change (Ascii.eqb ESC ESC) with true. cbv iota.
    change (strip_from AfterEsc "[0m") with "". apply append_nil_r.
  - destruct st; cbn [strip_from].
    + destruct (Ascii.eqb c ESC); now rewrite IH.
    + destruct (Ascii.eqb c "["); [apply IH|].
      destruct (Ascii.eqb c ESC); now rewrite IH.
    + destruct (is_param c); [apply IH|].
      destruct (Ascii.eqb c "m"); [apply IH|].
      destruct (Ascii.eqb c ESC); now rewrite IH.
Qed.

Lemma strip_sgr_level (code rest : string) :
  In code ["31"; "33"; "32"; "36"; "34"; "90"] ->
  strip (sgr code +:+ rest) = strip rest.
Proof.
  intros H. simpl in H.
  repeat (destruct H as [<-|H]; [reflexivity|]). contradiction.
Qed.

Lemma strip_paint_level (code text : string) :
  In code ["31"; "33"; "32"; "36"; "34"; "90"] ->
  strip (paint code text) = strip text.
Proof.
  intros H. unfold paint. rewrite strip_sgr_level by assumption.
  apply strip_from_sgr_0_end.
Qed.

(** X3. The colouring of the level and of the file name only adds colour
    sequences: with the sequences removed, the coloured level is the text
    that was coloured, for every level string (one of the seven or not), and
    the coloured file name is the bracketed name, or nothing for an empty or
    absent name. *)
Theorem colours_are_cosmetic (lvl text : string) (fileName : option string) :
  strip (colorLevel lvl text) = strip text /\
  strip (colorFileName fileName)
  = match fileName with
    | Some f => if truthy f then "[" +:+ strip f +:+ "]" else ""
    | None => ""
    end.
Proof.
  split.
  - unfold colorLevel.
    repeat (destruct (String.eqb lvl _);
            [apply strip_paint_level; simpl; tauto|]).
    reflexivity.
  - destruct fileName as [f|]; [|reflexivity].
    rewrite <- (append_nil_r (colorFileName (Some f))), strip_colored_file.
    apply append_nil_r.
Qed.

(** ** What the configuration settles *)

Lemma array_includes_names (s : string) :
  array_includes fileNameLogLevels s = true <-> exists l, s = level_name l.
Proof.
  split.
  - unfold array_includes, fileNameLogLevels. cbn [existsb].
    rewrite !orb_true_iff, !String.eqb_eq.
    intros [->|[->|[->|[->|[->|[->|[->|H]]]]]]]; [| | | | | | | discriminate H].
    + now exists error.
    + now exists warn.
    + now exists info.
    + now exists http.
    + now exists verbose.
    + now exists debug.
    + now exists silly.
  - intros [l ->]. now destruct l.
Qed.

(** X4. Whether lines carry the caller's file is settled once, by the
    configured level and not by the level of each record: the module
    constant is true exactly when [LOG_LEVEL] is absent, empty, or one of
    the seven names, written in lower case. *)
Theorem attribution_follows_configured_level (penv : gmap string string) :
  shouldLogFileName (configure (env penv)) = true <->
  (penv !! "LOG_LEVEL" = None \/ penv !! "LOG_LEVEL" = Some "" \/
   exists l, penv !! "LOG_LEVEL" = Some (level_name l)).
Proof.
  unfold configure. cbn [shouldLogFileName]. rewrite array_includes_names.
  destruct (penv !! "LOG_LEVEL") as [v|] eqn:Hv.
  - destruct (String.eqb_spec v "") as [->|Hne].
    + split; [auto | intros _; exists silly].
      simpl. now rewrite Hv.
    + rewrite (env_logLevel_given penv v Hv Hne). split.
      * intros [l ->]. right. right. now exists l.
      * intros [H|[H|[l H]]]; [discriminate H | congruence | exists l; congruence].
  - split; [auto | intros _; exists silly].
    simpl. now rewrite Hv.
Qed.

(** X5. The level handed to [createLogger] is always the one of the
    configuration module: that one is never empty, so the alternative
    "info" is never taken, and the logger's level is "info" only when
    [LOG_LEVEL] says so. *)
Theorem info_fallback_never_taken (penv : gmap string string) :
  level (logger (configure (env penv))) = logLevel (debugging (env penv)) /\
  level (logger (configure (env penv))) <> "" /\
  (level (logger (configure (env penv))) = "info" <->
   penv !! "LOG_LEVEL" = Some "info").
Proof.
  pose proof (env_logLevel_truthy penv) as Ht.
  rewrite configure_level by assumption.
  split; [reflexivity|]. split; [now apply truthy_nonempty|].
  destruct (penv !! "LOG_LEVEL") as [v|] eqn:Hv.
  - destruct (String.eqb_spec v "") as [->|Hne].
    + simpl. rewrite Hv. simpl. split; discriminate.
    + rewrite (env_logLevel_given penv v Hv Hne). split; congruence.
  - simpl. rewrite Hv. simpl. split; discriminate.
Qed.

(** ** More on the stack walk *)

Section CallerMore.

Variable path_relative : string -> string -> string.
Variable cwd : string.

Local Abbreviation getCallerFile := (Logger.getCallerFile path_relative cwd).

(** X1. A frame whose file name has [node_modules] or [util/logger]
    anywhere in it is passed over, whatever surrounds the marker: also a
    file of the application whose path happens to contain one of them. *)
Theorem marked_file_names_are_passed_over (before after : string) (rest : Trace) :
  getCallerFile
    (Some {| getFileName := Some (before +:+ "node_modules" +:+ after) |} :: rest)
  = getCallerFile rest /\
  getCallerFile
    (Some {| getFileName := Some (before +:+ "util/logger" +:+ after) |} :: rest)
  = getCallerFile rest.
Proof.
  split; apply getCallerFile_cons_skipped; unfold skipped; simpl;
    rewrite includes_middle; simpl; now rewrite ?andb_false_r.
Qed.

(** X2. Only the frames up to the first accepted one count: frames that are
    passed over can be put in front of a stack without changing the result,
    and what lies beyond the accepted frame does not matter. *)
Theorem getCallerFile_ignores_what_surrounds_the_caller
    (pre post post' : Trace) (name : string) :
  Forall skipped pre ->
  accepted (Some name) = true ->
  (forall rest, getCallerFile (pre ++ rest) = getCallerFile rest) /\
  getCallerFile (pre ++ Some {| getFileName := Some name |} :: post)
  = getCallerFile (Some {| getFileName := Some name |} :: post').
Proof.
  intros Hpre Hname.
  assert (Hdrop : forall rest, getCallerFile (pre ++ rest) = getCallerFile rest).
  { intros rest. induction Hpre as [|frame pre Hf _ IH]; [reflexivity|].
    rewrite <- app_comm_cons, getCallerFile_cons_skipped by assumption. exact IH. }
  split; [exact Hdrop|].
  now rewrite Hdrop, !getCallerFile_cons_accepted.
Qed.

End CallerMore.

(** ** What a run writes *)

Import Routes.

Section Output.

Variable path_relative : string -> string -> string.
Variable cwd : string.

Local Abbreviation getCallerFile := (Logger.getCallerFile path_relative cwd).
Local Abbreviation step := (Logger.step path_relative cwd).
Local Abbreviation run := (Logger.run path_relative cwd).
Local Abbreviation written := (Routes.written path_relative cwd).
Local Abbreviation get_root := (Routes.get_root path_relative cwd).
Local Abbreviation get_health := (Routes.get_health path_relative cwd).

Lemma step_written penv w op :
  logger_module w = configure (env penv) ->
  exists w', step w op = Normal w' /\
    stdout w' = stdout w ++ written penv op /\
    logger_module w' = logger_module w /\ env_module w' = env_module w.
Proof.
  intros Hm. destruct op as [l msg now trace | k v | k]; simpl.
  - destruct (emit_configured path_relative cwd penv l msg now trace) as [f [Hf He]].
    rewrite Hm, He, Hf. simpl. eauto.
  - rewrite app_nil_r. eauto.
  - rewrite app_nil_r. eauto.
Qed.

Lemma run_written penv ops : forall w,
  logger_module w = configure (env penv) ->
  exists w', run w ops = Normal w' /\
    stdout w' = stdout w ++ flat_map (written penv) ops /\
    logger_module w' = logger_module w /\ env_module w' = env_module w.
Proof.
  induction ops as [|op ops IH]; intros w Hm; simpl.
  - rewrite app_nil_r. eauto.
  - destruct (step_written penv w op Hm) as (w1 & -> & Ho & Hm1 & He1). simpl.
    destruct (IH w1) as (w2 & Hr & Ho2 & Hm2 & He2); [congruence|].
    exists w2. split; [exact Hr|]. rewrite Ho2, Ho, <- app_assoc.
    repeat split; congruence.
Qed.

Lemma written_length penv op :
  length (written penv op) <= if is_call op then 1 else 0.
Proof.
  destruct op as [l msg now trace | k v | k]; simpl; try lia.
  destruct (getCallerFile trace); simpl; [|lia].
  destruct (_ && _); simpl; lia.
Qed.

Lemma written_not_call penv op : is_call op = false -> written penv op = [].
Proof. destruct op; simpl; [discriminate | reflexivity | reflexivity]. Qed.

(** X8. Once the logger is configured, whatever is run keeps what was
    already on standard output and adds at most one line for each logging
    call. *)
Theorem at_most_one_line_per_call (penv : gmap string string) (w : World)
    (ops : list Op) :
  logger_module w = configure (env penv) ->
  exists w' added,
    run w ops = Normal w' /\
    stdout w' = stdout w ++ added /\
    length added <= length (List.filter is_call ops).
Proof.
  intros Hm. destruct (run_written penv ops w Hm) as (w' & Hr & Ho & _).
  exists w', (flat_map (written penv) ops). split; [exact Hr|]. split; [exact Ho|].
  clear. induction ops as [|op ops IH]; simpl; [lia|].
  rewrite length_app. pose proof (written_length penv op) as Hl.
  destruct (is_call op); simpl; lia.
Qed.

Lemma shouldLogFileName_of_level penv l :
  logLevel (debugging (env penv)) = level_name l ->
  shouldLogFileName (configure (env penv)) = true.
Proof.
  intros H. unfold configure. cbn [shouldLogFileName]. rewrite H. now destruct l.
Qed.


(** ** The routes *)

Lemma get_health_value penv w clock iso trace :
  logger_module w = configure (env penv) ->
  exists w',
    get_health w clock iso trace = Normal (HealthReply "ok" iso, w') /\
    stdout w' = stdout w ++ flat_map (written penv) (health_calls clock trace) /\
    logger_module w' = logger_module w.
Proof.
  intros Hm. unfold Routes.get_health.
  destruct (run_written penv (health_calls clock trace) w Hm) as (w' & -> & Ho & Hm' & _).
  simpl. eauto.
Qed.

Lemma get_root_value penv w now trace :
  logger_module w = configure (env penv) ->
  exists w',
    get_root w now trace = Normal (RootReply true, w') /\
    stdout w' = stdout w ++ flat_map (written penv) (root_calls now trace) /\
    logger_module w' = logger_module w.
Proof.
  intros Hm. unfold Routes.get_root.
  destruct (run_written penv (root_calls now trace) w Hm) as (w' & -> & Ho & Hm' & _).
  simpl. eauto.
Qed.

(** X6. With the logger enabled and the threshold at one of the seven
    levels, [GET /health] answers with the status "ok" and the timestamp it
    was given, and adds to standard output the lines of its calls from
    error down to the threshold, in the order of the calls: one line for
    threshold error, all seven for threshold silly. *)
Theorem get_health_writes_down_to_threshold (penv : gmap string string)
    (threshold : LogLevel) (w : World) (clock : nat -> Fecha.DateTime)
    (iso : string) (trace : Trace) :
  logger_module w = configure (env penv) ->
  enableDebug (debugging (env penv)) = true ->
  logLevel (debugging (env penv)) = level_name threshold ->
  exists f w',
    getCallerFile trace = Normal f /\
    get_health w clock iso trace = Normal (HealthReply "ok" iso, w') /\
    stdout w' = stdout w ++
                take (S (position threshold all_levels)) (health_lines clock f).
Proof.
  intros Hm Hon Hl.
  destruct (getCallerFile_walk path_relative cwd trace) as [f [Hf _]].
  destruct (get_health_value penv w clock iso trace Hm) as (w' & Hg & Ho & _).
  exists f, w'. split; [exact Hf|]. split; [exact Hg|]. rewrite Ho. f_equal.
  unfold health_calls, Routes.written. cbn [flat_map].
  rewrite Hf, Hon, Hl, (shouldLogFileName_of_level penv threshold Hl).
  rewrite !level_enabled_names.
  destruct threshold; reflexivity.
Qed.

(** X7. With the logger disabled both handlers still answer, [GET /] with
    [{ root: true }] and [GET /health] with the status "ok", and neither
    writes anything. *)
Theorem handlers_are_quiet_when_disabled (penv : gmap string string) (w : World)
    (now : Fecha.DateTime) (clock : nat -> Fecha.DateTime) (iso : string)
    (trace : Trace) :
  logger_module w = configure (env penv) ->
  enableDebug (debugging (env penv)) = false ->
  (exists w', get_root w now trace = Normal (RootReply true, w') /\
              stdout w' = stdout w) /\
  (exists w', get_health w clock iso trace = Normal (HealthReply "ok" iso, w') /\
              stdout w' = stdout w).
Proof.
  intros Hm Hoff.
  assert (Hq : forall ops, flat_map (written penv) ops = []).
  { induction ops as [|op ops IH]; cbn [flat_map]; [reflexivity|].
    rewrite IH, app_nil_r.
    destruct op as [l msg t tr | |]; [|reflexivity|reflexivity].
    unfold Routes.written. rewrite Hoff. now destruct (getCallerFile tr). }
  split.
  - destruct (get_root_value penv w now trace Hm) as (w' & Hg & Ho & _).
    exists w'. split; [exact Hg|]. now rewrite Ho, Hq, app_nil_r.
  - destruct (get_health_value penv w clock iso trace Hm) as (w' & Hg & Ho & _).
    exists w'. split; [exact Hg|]. now rewrite Ho, Hq, app_nil_r.
Qed.

(** X10. With the logger enabled and the threshold at one of the seven
    levels, [GET /] answers [{ root: true }] and writes its greeting, one
    line at level info, exactly when the threshold is info or a less severe
    level; under threshold error or warn it writes nothing. *)
Theorem get_root_writes_greeting (penv : gmap string string)
    (threshold : LogLevel) (w : World) (now : Fecha.DateTime) (trace : Trace) :
  logger_module w = configure (env penv) ->
  enableDebug (debugging (env penv)) = true ->
  logLevel (debugging (env penv)) = level_name threshold ->
  exists f w',
    getCallerFile trace = Normal f /\
    get_root w now trace = Normal (RootReply true, w') /\
    stdout w' = stdout w ++
      if at_or_below threshold info
      then [Fecha.format now +:+
            record_tail true "info" "Hello world from root route" f]
      else [].
Proof.
  intros Hm Hon Hl.
  destruct (getCallerFile_walk path_relative cwd trace) as [f [Hf _]].
  destruct (get_root_value penv w now trace Hm) as (w' & Hg & Ho & _).
  exists f, w'. split; [exact Hf|]. split; [exact Hg|]. rewrite Ho. f_equal.
  unfold root_calls, Routes.written. cbn [flat_map].
  rewrite Hf, Hon, Hl, (shouldLogFileName_of_level penv threshold Hl).
  rewrite level_enabled_names, app_nil_r.
  destruct (at_or_below threshold info); reflexivity.
Qed.

End Output.

(** ** Concrete runs of the routes and witnesses *)

Example marked_application_file_is_passed_over :
  Logger.getCallerFile Sample.relative Sample.cwd
    [ Sample.frame "/srv/app/dist/myutil/logger-client.js";
      Sample.frame "/srv/app/dist/routes/root.js" ]
  = Normal "dist/routes/root.js".
Proof. reflexivity. Qed.

Lemma getCallerFile_ignores_what_surrounds_the_caller_witness :
  Logger.getCallerFile Sample.relative Sample.cwd
    ([ Sample.frame "/srv/app/dist/util/logger.js"; None ] ++
     Sample.frame "/srv/app/dist/routes/root.js" ::
     [ Sample.frame "/srv/app/dist/app.js" ])
  = Logger.getCallerFile Sample.relative Sample.cwd
      [ Sample.frame "/srv/app/dist/routes/root.js" ].
Proof.
  apply (getCallerFile_ignores_what_surrounds_the_caller Sample.relative Sample.cwd
           [ Sample.frame "/srv/app/dist/util/logger.js"; None ]
           [ Sample.frame "/srv/app/dist/app.js" ] []
           "/srv/app/dist/routes/root.js").
  - repeat constructor.
  - reflexivity.
Defined.

Lemma attribution_follows_configured_level_witness :
  shouldLogFileName (configure (env Sample.at_http)) = true /\
  shouldLogFileName (configure (env Sample.bogus)) <> true.
Proof.
  split.
  - apply (proj2 (attribution_follows_configured_level Sample.at_http)).
    right. right. now exists http.
  - intros H. apply (proj1 (attribution_follows_configured_level Sample.bogus)) in H.
    destruct H as [H|[H|[l H]]]; [discriminate H | discriminate H |].
    vm_compute in H. destruct l; discriminate H.
Defined.

Lemma info_fallback_never_taken_witness :
  level (logger (configure (env Sample.unset))) <> "info".
Proof.
  destruct (info_fallback_never_taken Sample.unset) as (_ & _ & Hinfo).
  intros H. apply Hinfo in H. discriminate H.
Defined.

Lemma at_most_one_line_per_call_witness :
  exists w' added,
    Logger.run Sample.relative Sample.cwd (Started.world Sample.at_http) Started.session
    = Normal w' /\
    stdout w' = added /\ length added <= 3.
Proof.
  destruct (at_most_one_line_per_call Sample.relative Sample.cwd Sample.at_http
              (Started.world Sample.at_http) Started.session eq_refl)
    as (w' & added & Hr & Ho & Hl).
  exists w', added. auto.
Defined.

Lemma get_health_writes_down_to_threshold_witness :
  exists w',
    Routes.get_health Sample.relative Sample.cwd (Started.world Sample.at_http)
      Started.clock Started.iso Sample.stack
    = Normal (HealthReply "ok" Started.iso, w') /\
    map Ansi.strip (stdout w')
    = [ "2026-11-03 04:05:00 [ERROR][dist/routes/root.js]: Error level test";
        "2026-11-03 04:05:01 [WARN][dist/routes/root.js]: Warn level test";
        "2026-11-03 04:05:02 [INFO][dist/routes/root.js]: Info level test";
        "2026-11-03 04:05:03 [HTTP][dist/routes/root.js]: HTTP level test" ].
Proof.
  destruct (get_health_writes_down_to_threshold Sample.relative Sample.cwd
              Sample.at_http http (Started.world Sample.at_http) Started.clock
              Started.iso Sample.stack eq_refl eq_refl eq_refl)
    as (f & w' & Hf & Hg & Ho).
  assert (f = "dist/routes/root.js") as ->
    by (apply Normal_inj; rewrite <- Hf; reflexivity).
  exists w'. split; [exact Hg|]. rewrite Ho. vm_compute. reflexivity.
Defined.

Lemma handlers_are_quiet_when_disabled_witness :
  (exists w',
     Routes.get_root Sample.relative Sample.cwd (Started.world Sample.disabled)
       (Started.clock 0) Sample.stack = Normal (RootReply true, w') /\
     stdout w' = []) /\
  (exists w',
     Routes.get_health Sample.relative Sample.cwd (Started.world Sample.disabled)
       Started.clock Started.iso Sample.stack
     = Normal (HealthReply "ok" Started.iso, w') /\
     stdout w' = []).
Proof.
  exact (handlers_are_quiet_when_disabled Sample.relative Sample.cwd Sample.disabled
           (Started.world Sample.disabled) (Started.clock 0) Started.clock
           Started.iso Sample.stack eq_refl eq_refl).
Defined.

Lemma get_root_writes_greeting_witness :
  (exists w',
     Routes.get_root Sample.relative Sample.cwd (Started.world Sample.at_http)
       (Started.clock 0) Sample.stack = Normal (RootReply true, w') /\
     map Ansi.strip (stdout w')
     = [ "2026-11-03 04:05:00 [INFO][dist/routes/root.js]: Hello world from root route" ]) /\
  (exists w',
     Routes.get_root Sample.relative Sample.cwd (Started.world Sample.at_error)
       (Started.clock 0) Sample.stack = Normal (RootReply true, w') /\
     stdout w' = []).
Proof.
  split.
  - destruct (get_root_writes_greeting Sample.relative Sample.cwd Sample.at_http http
                (Started.world Sample.at_http) (Started.clock 0) Sample.stack
                eq_refl eq_refl eq_refl) as (f & w' & Hf & Hg & Ho).
    assert (f = "dist/routes/root.js") as ->
      by (apply Normal_inj; rewrite <- Hf; reflexivity).
    exists w'. split; [exact Hg|]. rewrite Ho. vm_compute. reflexivity.
  - destruct (get_root_writes_greeting Sample.relative Sample.cwd Sample.at_error error
                (Started.world Sample.at_error) (Started.clock 0) Sample.stack
                eq_refl eq_refl eq_refl) as (f & w' & _ & Hg & Ho).
    exists w'. split; [exact Hg | exact Ho].
Defined.

(** ** The described caller and the reported one *)

Example getCallerFile_on_module_urls :
  Logger.getCallerFile Sample.relative Sample.cwd Attribution.stack_of_urls
  = Normal "file:/srv/app/dist/routes/root.js".
Proof. reflexivity. Qed.

(** C5 does not hold as stated: a file of the application kept in a
    directory [myutil] is neither the logger's own nor library code, and it
    is the first such file of the stack, yet it is passed over, because its
    path has [util/logger] in it; the location reported is that of the next
    frame. *)
Lemma getCallerFile_passes_over_application_file :
  Attribution.first_outside Attribution.stack_with_client
  = Some "/srv/app/dist/myutil/logger-client.js" /\
  Attribution.described_caller Sample.relative Sample.cwd Attribution.stack_with_client
  = "dist/myutil/logger-client.js" /\
  Logger.getCallerFile Sample.relative Sample.cwd Attribution.stack_with_client
  = Normal "dist/routes/root.js" /\
  Logger.getCallerFile Sample.relative Sample.cwd Attribution.stack_with_client
  <> Normal (Attribution.described_caller Sample.relative Sample.cwd
               Attribution.stack_with_client).
Proof.
  assert (H1 : Attribution.first_outside Attribution.stack_with_client
               = Some "/srv/app/dist/myutil/logger-client.js") by reflexivity.
  assert (H2 : Attribution.described_caller Sample.relative Sample.cwd
                 Attribution.stack_with_client = "dist/myutil/logger-client.js")
    by reflexivity.
  assert (H3 : Logger.getCallerFile Sample.relative Sample.cwd
                 Attribution.stack_with_client = Normal "dist/routes/root.js")
    by reflexivity.
  repeat split; try assumption. rewrite H3, H2. discriminate.
Qed.


